(** * ltcd: the lifecycle entry point and the store contracts it drives

    The development embeds [ltcdMain] and [main] of [ltcd.go] as programs in
    a small monad that threads the observable call trace, the stack of
    deferred calls and the opened block database, and settles the ordering
    and error-path properties of the lifecycle on that embedding.  The
    packages [ltcdMain] calls into (configuration, upgrades, the block
    database, the indexers, the server) are taken as an environment. *)

From stdpp Require Import gmap strings list fin_maps.

(** ** Data *)

(** A Go [error] value, identified by its message. *)
Definition error := string.

Inductive result (A : Type) : Type :=
| Ok (a : A)
| Err (e : error).
Arguments Ok {A} a.
Arguments Err {A} e.

(** The fields of [config] that [ltcdMain] reads. *)
Record config := {
  Profile : string;
  CPUProfile : string;
  DropAddrIndex : bool;
  DropTxIndex : bool;
  Listeners : list string;
}.

Inductive logger := backendLog | ltcdLog | srvrLog.
Inductive level := Info | Error.

(** The calls [ltcdMain] defers, in the order of the source. *)
Inductive deferred :=
| DeferFlush                 (* defer backendLog.Flush() *)
| DeferInfo (msg : string)   (* defer ltcdLog.Info("Shutdown complete") *)
| DeferFileClose (path : string)
| DeferStopCPUProfile
| DeferDbClose               (* the func literal closing db *)
| DeferServerStop.           (* the func literal stopping the server *)

(** One observable step of the program: a call, with its result where the
    program branches on it, or the registration of a deferred call. *)
Inductive event :=
| EvGOMAXPROCS
| EvSetGCPercent (pct : nat)
| EvSetLimits (r : option error)
| EvStderr (msg : string)
| EvPrintln (msg : string)
| EvWinServiceMain (isService : bool) (r : option error)
| EvExit (code : nat)
| EvLoadConfig (r : option error)
| EvInterruptListener
| EvLog (l : logger) (lv : level) (msg : string)
| EvFlush
| EvGoProfileServer (port : string)
| EvCreate (path : string) (r : option error)
| EvStartCPUProfile (path : string)
| EvStopCPUProfile
| EvFileClose (path : string)
| EvDoUpgrades (r : option error)
| EvInterruptRequested (b : bool)
| EvLoadBlockDB (r : option error)
| EvDbClose
| EvDropAddrIndex (r : option error)
| EvDropTxIndex (r : option error)
| EvNewServer (r : option error)
| EvServerStart
| EvServerChanSend
| EvAwaitInterrupt
| EvServerStop
| EvServerWaitForShutdown
| EvDefer (d : deferred)
| EvHttpHandle (pattern target : string) (code : nat)
| EvListenAndServe (addr : string) (r : option error).

(** ** Environment *)

(** What the rest of the program and the operating system answer.  [DB] is
    the content of the block database behind the handle. *)
Record Env (DB : Type) := {
  loadConfig : result config;
  version : string;
  os_Create : string -> option error;
  doUpgrades : option error;
  (** The shutdown signal: [Some n] when the channel returned by
      [interruptListener] is found closed from the [n]-th look at it on,
      [None] when it is never closed. *)
  signal : option nat;
  loadBlockDB : result DB;
  indexers_DropAddrIndex : DB -> DB * option error;
  indexers_DropTxIndex : DB -> DB * option error;
  newServer : list string -> DB -> option error;
  limits_SetLimits : option error;
  GOOS : string;
  winServiceMain : bool * option error;
  (** [http.ListenAndServe(addr, nil)] in the goroutine of the profile
      server: the error it returns, or [None] when it serves for ever. *)
  http_ListenAndServe : string -> option error;
  (** Whether the service code receives the server that [ltcdMain] sends on a
      non-nil [serverChan]; the send blocks until it does. *)
  received : bool;
  (** What the serving components make of the content of the database
      once [newServer] has been handed it. *)
  served : DB -> DB;
}.
Arguments loadConfig {DB} _.
Arguments version {DB} _.
Arguments os_Create {DB} _ _.
Arguments doUpgrades {DB} _.
Arguments signal {DB} _.
Arguments loadBlockDB {DB} _.
Arguments indexers_DropAddrIndex {DB} _ _.
Arguments indexers_DropTxIndex {DB} _ _.
Arguments newServer {DB} _ _ _.
Arguments limits_SetLimits {DB} _.
Arguments GOOS {DB} _.
Arguments winServiceMain {DB} _.
Arguments http_ListenAndServe {DB} _ _.
Arguments received {DB} _.
Arguments served {DB} _ _.

(** ** The monad of a Go function body *)

Record state (DB : Type) := {
  trace : list event;
  defers : list deferred;   (* most recently deferred first *)
  looks : nat;              (* how often the interrupt channel was read *)
  db : option DB;           (* the opened block database *)
}.
Arguments trace {DB} _.
Arguments defers {DB} _.
Arguments looks {DB} _.
Arguments db {DB} _.

(** How a statement ends: control goes on, the function returns, or the
    goroutine blocks for ever. *)
Inductive flow (A : Type) : Type :=
| Next (a : A)
| Return (err : option error)
| Block.
Arguments Next {A} a.
Arguments Return {A} err.
Arguments Block {A}.

Definition M (DB A : Type) : Type := state DB -> state DB * flow A.

Section Monad.
Context {DB : Type}.

Definition ret {A} (a : A) : M DB A := fun s => (s, Next a).

Definition bind {A B} (m : M DB A) (k : A -> M DB B) : M DB B :=
  fun s =>
    match m s with
    | (s', Next a) => k a s'
    | (s', Return e) => (s', Return e)
    | (s', Block) => (s', Block)
    end.

Definition return_ {A} (e : option error) : M DB A := fun s => (s, Return e).

Definition block {A} : M DB A := fun s => (s, Block).

Definition emit (e : event) : M DB unit :=
  fun s => ({| trace := trace s ++ [e]; defers := defers s;
               looks := looks s; db := db s |}, Next tt).

Definition defer (d : deferred) : M DB unit :=
  fun s => ({| trace := trace s ++ [EvDefer d]; defers := d :: defers s;
               looks := looks s; db := db s |}, Next tt).

Definition set_db (d : DB) : M DB unit :=
  fun s => ({| trace := trace s; defers := defers s;
               looks := looks s; db := Some d |}, Next tt).

Definition tick : M DB nat :=
  fun s => ({| trace := trace s; defers := defers s;
               looks := S (looks s); db := db s |}, Next (looks s)).

Definition when (b : bool) (m : M DB unit) : M DB unit :=
  if b then m else ret tt.
End Monad.

Notation "x <- m ;; k" := (bind m (fun x => k))
  (at level 100, m at next level, right associativity).
Notation "m ;;; k" := (bind m (fun _ => k))
  (at level 100, right associativity).

Definition log {DB} (l : logger) (lv : level) (msg : string) : M DB unit :=
  emit (EvLog l lv msg).

(** The line feed that ends a format. *)
Definition newline : string :=
  String (Ascii.Ascii false true false true false false false false) EmptyString.

(** [fmt.Sprint] of a [[]string]. *)
Definition show_list (l : list string) : string :=
  "[" +:+ String.concat " " l +:+ "]".

(** The events of one deferred call. *)
Definition run_deferred (d : deferred) : list event :=
  match d with
  | DeferFlush => [EvFlush]
  | DeferInfo msg => [EvLog ltcdLog Info msg]
  | DeferFileClose p => [EvFileClose p]
  | DeferStopCPUProfile => [EvStopCPUProfile]
  | DeferDbClose =>
      [EvLog ltcdLog Info "Gracefully shutting down the database..."; EvDbClose]
  | DeferServerStop =>
      [EvLog ltcdLog Info "Gracefully shutting down the server...";
       EvServerStop; EvServerWaitForShutdown;
       EvLog srvrLog Info "Server shutdown complete"]
  end.

(** Deferred calls run when the function returns, last deferred first. *)
Definition unwind (ds : list deferred) : list event :=
  concat (map run_deferred ds).

(** The deferred calls a trace has registered, last registered first. *)
Definition registered (t : list event) : list deferred :=
  reverse (omap (fun e => match e with EvDefer d => Some d | _ => None end) t).

(** How a call of a function ends. *)
Inductive outcome :=
| Returns (err : option error)
| Blocks.

Section Program.
Context {DB : Type} (env : Env DB).

(** Whether the interrupt channel is closed at the [k]-th look. *)
Definition closed_at (k : nat) : bool :=
  match signal env with
  | Some n => bool_decide (n <= k)
  | None => false
  end.

(** [interruptRequested(interruptedChan)]: a non-blocking receive. *)
Definition interruptRequested : M DB bool :=
  k <- tick ;;
  emit (EvInterruptRequested (closed_at k)) ;;;
  ret (closed_at k).

(** [<-interruptedChan]: blocks until the channel is closed. *)
Definition await_interrupt : M DB unit :=
  match signal env with
  | Some _ => emit EvAwaitInterrupt
  | None => block
  end.

Definition nonempty (s : string) : bool := bool_decide (s ≠ "").

(** The body of [ltcdMain], statement by statement; the comments give the
    lines of [ltcd.go]. *)
Definition ltcdMain_body (serverChan : bool) : M DB Empty_set :=
  (* 37-42 *)
  emit (EvLoadConfig (match loadConfig env with Ok _ => None | Err e => Some e end)) ;;;
  match loadConfig env with
  | Err err => return_ (Some err)
  | Ok cfg =>
    defer DeferFlush ;;;
    (* 47-51 *)
    emit EvInterruptListener ;;;
    defer (DeferInfo "Shutdown complete") ;;;
    log ltcdLog Info ("Version " +:+ version env) ;;;
    (* 54-63 *)
    when (nonempty (Profile cfg)) (emit (EvGoProfileServer (Profile cfg))) ;;;
    (* 66-75 *)
    (if nonempty (CPUProfile cfg) then
       emit (EvCreate (CPUProfile cfg) (os_Create env (CPUProfile cfg))) ;;;
       match os_Create env (CPUProfile cfg) with
       | Some err =>
           log ltcdLog Error ("Unable to create cpu profile: " +:+ err) ;;;
           return_ (Some err)
       | None =>
           emit (EvStartCPUProfile (CPUProfile cfg)) ;;;
           defer (DeferFileClose (CPUProfile cfg)) ;;;
           defer DeferStopCPUProfile
       end
     else ret tt) ;;;
    (* 78-81 *)
    emit (EvDoUpgrades (doUpgrades env)) ;;;
    match doUpgrades env with
    | Some err => log ltcdLog Error err ;;; return_ (Some err)
    | None =>
      (* 84-86 *)
      b <- interruptRequested ;;
      if b : bool then return_ None else
      (* 89-98 *)
      emit (EvLoadBlockDB (match loadBlockDB env with Ok _ => None | Err e => Some e end)) ;;;
      match loadBlockDB env with
      | Err err => log ltcdLog Error err ;;; return_ (Some err)
      | Ok d =>
        set_db d ;;;
        defer DeferDbClose ;;;
        (* 101-103 *)
        b <- interruptRequested ;;
        if b : bool then return_ None else
        (* 109-116 *)
        if DropAddrIndex cfg then
          let '(d', r) := indexers_DropAddrIndex env d in
          set_db d' ;;;
          emit (EvDropAddrIndex r) ;;;
          match r with
          | Some err => log ltcdLog Error err ;;; return_ (Some err)
          | None => return_ None
          end
        (* 117-124 *)
        else if DropTxIndex cfg then
          let '(d', r) := indexers_DropTxIndex env d in
          set_db d' ;;;
          emit (EvDropTxIndex r) ;;;
          match r with
          | Some err => log ltcdLog Error err ;;; return_ (Some err)
          | None => return_ None
          end
        else
          (* 127-149 *)
          emit (EvNewServer (newServer env (Listeners cfg) d)) ;;;
          set_db (served env d) ;;;
          match newServer env (Listeners cfg) d with
          | Some err =>
              log ltcdLog Error
                ("Unable to start server on " +:+ show_list (Listeners cfg)
                 +:+ ": " +:+ err) ;;;
              return_ (Some err)
          | None =>
              defer DeferServerStop ;;;
              emit EvServerStart ;;;
              when serverChan
                (emit EvServerChanSend ;;;
                 if received env then ret tt else block) ;;;
              await_interrupt ;;;
              return_ None
          end
      end
    end
  end.

Definition init : state DB :=
  {| trace := []; defers := []; looks := 0; db := None |}.

(** A call of [ltcdMain]: the body, then the deferred calls when it
    returns.  A body that blocks never reaches them. *)
Definition ltcdMain (serverChan : bool) : list event * option DB * outcome :=
  match ltcdMain_body serverChan init with
  | (s, Return e) => (trace s ++ unwind (defers s), db s, Returns e)
  | (s, Block) => (trace s, db s, Blocks)
  | (_, Next a) => match a with end
  end.

Definition ltcdMain_trace (serverChan : bool) : list event :=
  (ltcdMain serverChan).1.1.
Definition ltcdMain_db (serverChan : bool) : option DB :=
  (ltcdMain serverChan).1.2.
Definition ltcdMain_outcome (serverChan : bool) : outcome :=
  (ltcdMain serverChan).2.

(** How the process ends: [os.Exit] with a code, or [main] never returns.
    A [main] that returns exits with code 0. *)
Inductive exit := Exit (code : nat) | Hang.

(** [main]: the process entry point. *)
Definition main : list event * exit :=
  let t0 := [EvGOMAXPROCS; EvSetGCPercent 10; EvSetLimits (limits_SetLimits env)] in
  match limits_SetLimits env with
  | Some err =>
      (t0 ++ [EvStderr ("failed to set limits: " +:+ err +:+ newline); EvExit 1],
       Exit 1)
  | None =>
      let run t :=
        match ltcdMain false with
        | (tr, _, Returns (Some _)) => (t ++ tr ++ [EvExit 1], Exit 1)
        | (tr, _, Returns None) => (t ++ tr, Exit 0)
        | (tr, _, Blocks) => (t ++ tr, Hang)
        end in
      if bool_decide (GOOS env = "windows") then
        let '(isService, r) := winServiceMain env in
        let t1 := t0 ++ [EvWinServiceMain isService r] in
        match r with
        | Some err => (t1 ++ [EvPrintln err; EvExit 1], Exit 1)
        | None =>
            if isService then (t1 ++ [EvExit 0], Exit 0) else run t1
        end
      else run t0
  end.

(** [net.JoinHostPort("", port)]. *)
Definition listenAddr (port : string) : string := ":" +:+ port.

(** The body of the goroutine [ltcdMain] launches for the profile server
    (lines 55-62), which runs beside [ltcdMain]: its own events, in its own
    order.  [http.ListenAndServe] returns only with an error. *)
Definition profileServer_body (cfg : config) : M DB unit :=
  log ltcdLog Info
    ("Profile server listening on " +:+ listenAddr (Profile cfg)) ;;;
  emit (EvHttpHandle "/" "/debug/pprof" 303) ;;;
  emit (EvListenAndServe (listenAddr (Profile cfg))
          (http_ListenAndServe env (listenAddr (Profile cfg)))) ;;;
  match http_ListenAndServe env (listenAddr (Profile cfg)) with
  | Some err => log ltcdLog Error err
  | None => block
  end.

(** The trace of that goroutine, if [ltcdMain] launches it. *)
Definition profileServer : option (list event) :=
  match loadConfig env with
  | Ok cfg =>
      if nonempty (Profile cfg)
      then Some (trace (profileServer_body cfg init).1)
      else None
  | Err _ => None
  end.
End Program.

(** ** Properties of traces *)

Section Traces.
Implicit Types (P Q : event -> bool) (t : list event).

(** Some event of [t] satisfies [P]. *)
Definition occurs P t : Prop := ∃ e, e ∈ t ∧ P e = true.

(** No event of [t] satisfies [P]. *)
Definition never P t : Prop := ∀ e, e ∈ t -> P e = false.

(** A [P] event occurs in [t] strictly before a [Q] event. *)
Definition precedes P Q t : Prop :=
  ∃ t1 a t2 b t3, t = t1 ++ a :: t2 ++ b :: t3 ∧ P a = true ∧ Q b = true.

(** Every [Q] event of [t] has a [P] event strictly before it. *)
Definition guarded_by P Q t : Prop :=
  ∀ t1 b t2, t = t1 ++ b :: t2 -> Q b = true -> occurs P t1.

(** The number of [P] events of [t]. *)
Fixpoint count P t : nat :=
  match t with
  | [] => 0
  | e :: t' => (if P e then 1 else 0) + count P t'
  end.

(** Exactly one event of [t] satisfies [P]. *)
Definition once P t : Prop := count P t = 1.

Fixpoint precedesb P Q t : bool :=
  match t with
  | [] => false
  | e :: t' => (P e && existsb Q t') || precedesb P Q t'
  end.

(** The events before and after the first [P] event of [t]. *)
Fixpoint split_at P t : option (list event * list event) :=
  match t with
  | [] => None
  | e :: t' =>
      if P e then Some ([], t')
      else match split_at P t' with
           | Some (t1, t2) => Some (e :: t1, t2)
           | None => None
           end
  end.

Fixpoint guardedb P Q (seen : bool) t : bool :=
  match t with
  | [] => true
  | e :: t' => (negb (Q e) || seen) && guardedb P Q (seen || P e) t'
  end.
End Traces.

(** ** The steps of the lifecycle, as classes of events *)

(** The Storage Engine is opened: [loadBlockDB] is called. *)
Definition is_open (e : event) : bool :=
  match e with EvLoadBlockDB _ => true | _ => false end.
(** [loadBlockDB] returned a handle. *)
Definition is_opened (e : event) : bool :=
  match e with EvLoadBlockDB None => true | _ => false end.
(** The upgrade step: [doUpgrades] is called. *)
Definition is_upgrade (e : event) : bool :=
  match e with EvDoUpgrades _ => true | _ => false end.
(** [doUpgrades] ran to completion. *)
Definition is_upgraded (e : event) : bool :=
  match e with EvDoUpgrades None => true | _ => false end.
(** A maintenance index drop. *)
Definition is_drop (e : event) : bool :=
  match e with EvDropAddrIndex _ | EvDropTxIndex _ => true | _ => false end.
Definition is_drop_ok (e : event) : bool :=
  match e with EvDropAddrIndex None | EvDropTxIndex None => true | _ => false end.
Definition is_drop_tx (e : event) : bool :=
  match e with EvDropTxIndex _ => true | _ => false end.
Definition is_drop_addr (e : event) : bool :=
  match e with EvDropAddrIndex _ => true | _ => false end.
(** Construction of the serving components: [newServer] is called. *)
Definition is_construct (e : event) : bool :=
  match e with EvNewServer _ => true | _ => false end.
(** [newServer] returned a server. *)
Definition is_constructed (e : event) : bool :=
  match e with EvNewServer None => true | _ => false end.
Definition is_start (e : event) : bool :=
  match e with EvServerStart => true | _ => false end.
(** A serving component is created or started. *)
Definition is_serving (e : event) : bool := is_constructed e || is_start e.
Definition is_stop (e : event) : bool :=
  match e with EvServerStop => true | _ => false end.
Definition is_wait (e : event) : bool :=
  match e with EvServerWaitForShutdown => true | _ => false end.
Definition is_close (e : event) : bool :=
  match e with EvDbClose => true | _ => false end.
(** An interrupt found at a startup checkpoint. *)
Definition is_interrupted (e : event) : bool :=
  match e with EvInterruptRequested true => true | _ => false end.
(** A checkpoint that found no interrupt. *)
Definition is_not_interrupted (e : event) : bool :=
  match e with EvInterruptRequested false => true | _ => false end.
(** A step of startup or of serving: every call of the body of [ltcdMain]
    other than logging, and every registration of a deferred call. *)
Definition is_startup_step (e : event) : bool :=
  match e with
  | EvLoadConfig _ | EvInterruptListener | EvGoProfileServer _ | EvCreate _ _
  | EvStartCPUProfile _ | EvDoUpgrades _ | EvInterruptRequested _
  | EvLoadBlockDB _ | EvDropAddrIndex _ | EvDropTxIndex _ | EvNewServer _
  | EvServerStart | EvServerChanSend | EvAwaitInterrupt | EvDefer _ => true
  | _ => false
  end.
(** The process exits with an error code. *)
Definition is_error_exit (e : event) : bool :=
  match e with EvExit (S _) => true | _ => false end.
(** The error a fatal step after the open returns, if the event is one. *)
Definition fatal_after_open (e : event) : option error :=
  match e with
  | EvDropAddrIndex (Some err) | EvDropTxIndex (Some err)
  | EvNewServer (Some err) => Some err
  | _ => None
  end.

Definition is_fatal (e : event) : bool :=
  match fatal_after_open e with Some _ => true | None => false end.

(** ** The Index Manager *)

Module IndexManager.
Inductive index_kind := TransactionIndex | AddressIndex.

#[global] Instance index_kind_eq_dec : EqDecision index_kind.
Proof. solve_decision. Defined.

#[global] Instance index_kind_countable : Countable index_kind.
Proof.
  refine (inj_countable'
            (fun k => match k with TransactionIndex => 0 | AddressIndex => 1 end)
            (fun n => match n with 0 => TransactionIndex | _ => AddressIndex end)
            _).
  by intros [].
Defined.

(** Modelled from the spec: the store of the derived indexes, which lives
    in the indexers package.  An index that exists owns a keyspace of raw
    keys and values; an index that does not exist owns none. *)
Definition index_store : Type := gmap index_kind (gmap string string).

(** Modelled from the spec: [HasIndex(kind)] of the Index Manager. *)
Definition HasIndex (k : index_kind) (s : index_store) : bool :=
  bool_decide (is_Some (s !! k)).

(** Modelled from the spec: dropping the data of one index, without
    regard to the indexes that depend on it. *)
Definition drop_data (k : index_kind) (s : index_store) : index_store :=
  delete k s.

(** Modelled from the spec: the drops [DropIndex(kind)] performs, in
    order.  [DropIndex(TransactionIndex)] first performs
    [DropIndex(AddressIndex)] if that index is present, then drops its
    own data. *)
Definition drop_plan (k : index_kind) (s : index_store) : list index_kind :=
  match k with
  | AddressIndex => [AddressIndex]
  | TransactionIndex =>
      (if HasIndex AddressIndex s then [AddressIndex] else [])
      ++ [TransactionIndex]
  end.

(** Modelled from the spec: [DropIndex(kind)] of the Index Manager. *)
Definition DropIndex (k : index_kind) (s : index_store) : index_store :=
  foldl (fun s' k' => drop_data k' s') s (drop_plan k s).

(** Modelled from the spec: [CreateIndex(kind)] of the Index Manager.
    Creating the Address Index without an existing Transaction Index
    fails with [IndexDependencyError] and changes nothing. *)
Definition CreateIndex (k : index_kind) (s : index_store)
  : index_store * option error :=
  let create k' :=
    match s !! k' with
    | Some _ => s
    | None => <[k' := ∅]> s
    end in
  match k with
  | TransactionIndex => (create TransactionIndex, None)
  | AddressIndex =>
      if HasIndex TransactionIndex s then (create AddressIndex, None)
      else (s, Some "IndexDependencyError")
  end.

End IndexManager.

Module indexers.
Import IndexManager.

(** Modelled from the spec: [indexers.DropAddrIndex(db)], the entry point
    [ltcdMain] calls for a requested Address Index drop. *)
Definition DropAddrIndex (s : index_store) : index_store * option error :=
  (DropIndex AddressIndex s, None).

(** Modelled from the spec: [indexers.DropTxIndex(db)], the entry point
    [ltcdMain] calls for a requested Transaction Index drop. *)
Definition DropTxIndex (s : index_store) : index_store * option error :=
  (DropIndex TransactionIndex s, None).
End indexers.

(** ** The Block Store *)

Module BlockStore.
Inductive entry_status := valid | invalid | unknown.

(** Modelled from the spec: a Chain Index Entry.  Blocks are identified
    by their content hash; genesis has no parent. *)
Record chain_entry := {
  height : nat;
  work : N;
  status : entry_status;
  parent : option string;
}.

(** Modelled from the spec: a Spend Record, the prior outputs a block
    consumed, each as transaction id and output number. *)
Definition spend_record : Type := list (string * nat).

(** Modelled from the spec: the chain state of the Block Store, which
    lives in the blockchain package: the Chain Tip, the Chain Index
    Entries and the spend journal. *)
Record chain_state := {
  tip : string;
  entries : gmap string chain_entry;
  journal : gmap string spend_record;
}.

(** Modelled from the spec: [ConnectBlock(blockId, spendRecord)].  The
    parent of the block must equal the current tip; the block becomes the
    tip and its Spend Record is recorded. *)
Definition ConnectBlock (b : string) (sr : spend_record) (S : chain_state)
  : result chain_state :=
  match entries S !! b with
  | Some e =>
      if decide (parent e = Some (tip S)) then
        Ok {| tip := b; entries := entries S;
              journal := <[b := sr]> (journal S) |}
      else Err "ChainLinkageError"
  | None => Err "ChainLinkageError"
  end.

(** Modelled from the spec: [DisconnectTip()].  The previous tip is
    restored, the Spend Record of the disconnected block leaves the
    journal, and the id of the disconnected block is returned.  At
    genesis it fails with [EmptyChainError]. *)
Definition DisconnectTip (S : chain_state) : result (string * chain_state) :=
  match entries S !! tip S with
  | Some e =>
      match parent e with
      | Some p =>
          Ok (tip S, {| tip := p; entries := entries S;
                        journal := delete (tip S) (journal S) |})
      | None => Err "EmptyChainError"
      end
  | None => Err "NotFoundError"
  end.

(** Modelled from the spec: [BestTip()], the id and height of the tip. *)
Definition BestTip (S : chain_state) : option (string * nat) :=
  e ← entries S !! tip S; Some (tip S, height e).

(** [b] is connectable at [S]: [ConnectBlock] accepts it. *)
Definition connectable (b : string) (S : chain_state) : Prop :=
  ∃ e, entries S !! b = Some e ∧ parent e = Some (tip S).

(** The chain index is a tree rooted at genesis: every entry with a parent
    stands one above an entry that is present. *)
Definition heights_ok (S : chain_state) : Prop :=
  ∀ b e p, entries S !! b = Some e -> parent e = Some p ->
           ∃ ep, entries S !! p = Some ep ∧ height e = height ep + 1.

(** The block [n] parent links below [b]. *)
Fixpoint ancestor (es : gmap string chain_entry) (n : nat) (b : string)
  : option string :=
  match n with
  | 0 => Some b
  | S n' =>
      match es !! b with
      | Some e =>
          match parent e with
          | Some p => ancestor es n' p
          | None => None
          end
      | None => None
      end
  end.

(** The spend journal holds records of blocks of the best chain only. *)
Definition journal_ok (S : chain_state) : Prop :=
  ∀ b, is_Some (journal S !! b) -> ∃ n, ancestor (entries S) n (tip S) = Some b.

(** The states the two operations move between. *)
Definition consistent (S : chain_state) : Prop := heights_ok S ∧ journal_ok S.
End BlockStore.

(** ** The Upgrade Engine *)

Module UpgradeEngine.
(** Modelled from the spec: the stored bytes the Upgrade Engine works on,
    which live behind the upgrade code of the repository: the singleton
    Schema Version and the keyed data. *)
Record vstore := {
  schema_version : nat;
  data : gmap string string;
}.

Section Engine.
(** The version the running software expects, and the migration steps:
    [steps v] takes the data from layout [v] to layout [v + 1]. *)
Variable current : nat.
Variable steps : nat -> gmap string string -> result (gmap string string).

(** Modelled from the spec: [n] migration steps in strict order.  A step
    commits its transformation together with the version bump, or
    nothing. *)
Fixpoint migrate (n : nat) (st : vstore) : vstore * option error :=
  match n with
  | 0 => (st, None)
  | S n' =>
      match steps (schema_version st) (data st) with
      | Ok d' =>
          migrate n' {| schema_version := S (schema_version st); data := d' |}
      | Err e => (st, Some e)
      end
  end.

(** Modelled from the spec: the Upgrade Engine run at open time. *)
Definition upgrade (st : vstore) : vstore * option error :=
  if decide (schema_version st = current) then (st, None)
  else if decide (current < schema_version st) then
    (st, Some "UnsupportedVersionError")
  else migrate (current - schema_version st) st.
End Engine.
End UpgradeEngine.

(** ** Concrete environments *)

Module Examples.
Import IndexManager.

Definition cfg_serve : config :=
  {| Profile := ""; CPUProfile := ""; DropAddrIndex := false;
     DropTxIndex := false; Listeners := ["127.0.0.1:9333"] |}.

Definition cfg_profile : config :=
  {| Profile := "6060"; CPUProfile := "cpu.prof"; DropAddrIndex := false;
     DropTxIndex := false; Listeners := ["127.0.0.1:9333"] |}.

Definition cfg_drop_addr : config :=
  {| Profile := ""; CPUProfile := ""; DropAddrIndex := true;
     DropTxIndex := false; Listeners := [] |}.

Definition cfg_drop_tx : config :=
  {| Profile := ""; CPUProfile := ""; DropAddrIndex := false;
     DropTxIndex := true; Listeners := [] |}.

Definition cfg_drop_both : config :=
  {| Profile := ""; CPUProfile := ""; DropAddrIndex := true;
     DropTxIndex := true; Listeners := [] |}.

(** A store holding both indexes. *)
Definition both_indexes : index_store :=
  <[AddressIndex := {["addr1" := "tx1"]}]>
    (<[TransactionIndex := {["tx1" := "block1:0"]}]> ∅).

(** An environment in which every call succeeds; the shutdown signal is
    found at the [n]-th look at the interrupt channel. *)
Definition env_of (cfg : config) (sig : option nat) : Env index_store :=
  {| loadConfig := Ok cfg; version := "0.22"; os_Create := fun _ => None;
     doUpgrades := None; signal := sig; loadBlockDB := Ok both_indexes;
     indexers_DropAddrIndex := indexers.DropAddrIndex;
     indexers_DropTxIndex := indexers.DropTxIndex;
     newServer := fun _ _ => None; limits_SetLimits := None;
     GOOS := "linux"; winServiceMain := (false, None);
     http_ListenAndServe := fun _ => None; received := true;
     served := fun d => d |}.

(** The same with a failing [newServer]. *)
Definition env_no_server : Env index_store :=
  {| loadConfig := Ok cfg_serve; version := "0.22"; os_Create := fun _ => None;
     doUpgrades := None; signal := Some 2; loadBlockDB := Ok both_indexes;
     indexers_DropAddrIndex := indexers.DropAddrIndex;
     indexers_DropTxIndex := indexers.DropTxIndex;
     newServer := fun _ _ => Some "listen tcp :9333: address in use";
     limits_SetLimits := None;
     GOOS := "linux"; winServiceMain := (false, None);
     http_ListenAndServe := fun _ => None; received := true;
     served := fun d => d |}.

(** The run of [env_of cfg_profile (Some 1)] up to its second checkpoint,
    and what follows that checkpoint. *)
Definition startup_until_open : list event :=
  [EvLoadConfig None; EvDefer DeferFlush; EvInterruptListener;
   EvDefer (DeferInfo "Shutdown complete"); EvLog ltcdLog Info "Version 0.22";
   EvGoProfileServer "6060"; EvCreate "cpu.prof" None;
   EvStartCPUProfile "cpu.prof"; EvDefer (DeferFileClose "cpu.prof");
   EvDefer DeferStopCPUProfile; EvDoUpgrades None; EvInterruptRequested false;
   EvLoadBlockDB None; EvDefer DeferDbClose].
Definition shutdown_after_open : list event :=
  [EvLog ltcdLog Info "Gracefully shutting down the database...";
   EvDbClose; EvStopCPUProfile; EvFileClose "cpu.prof";
   EvLog ltcdLog Info "Shutdown complete"; EvFlush].

Import BlockStore.

Definition genesis_entry : chain_entry :=
  {| height := 0; work := 1%N; status := valid; parent := None |}.
Definition b1_entry : chain_entry :=
  {| height := 1; work := 2%N; status := valid; parent := Some "genesis" |}.

(** The chain at genesis, with block [b1] stored but not connected. *)
Definition at_genesis : chain_state :=
  {| tip := "genesis";
     entries := <["b1" := b1_entry]> (<["genesis" := genesis_entry]> ∅);
     journal := ∅ |}.

Import UpgradeEngine.

(** Two migration steps: the first renames a key, the second adds one. *)
Definition steps2 (v : nat) (d : gmap string string)
  : result (gmap string string) :=
  match v with
  | 0 => match d !! "tip" with
         | Some x => Ok (<["chaintip" := x]> (delete "tip" d))
         | None => Err "missing tip"
         end
  | 1 => Ok (<["indexes" := ""]> d)
  | _ => Err "no such migration"
  end.

Definition store_v0 : vstore :=
  {| schema_version := 0; data := {["tip" := "genesis"]} |}.
Definition store_v2 : vstore :=
  {| schema_version := 2;
     data := <["indexes" := ""]> {["chaintip" := "genesis"]} |}.
Definition store_v3 : vstore :=
  {| schema_version := 3; data := {["chaintip" := "genesis"]} |}.
End Examples.

(** ** Further classes of events *)

(** A call that failed, with the error it returned. *)
Definition failure_of (e : event) : option error :=
  match e with
  | EvLoadConfig (Some err) | EvCreate _ (Some err) | EvDoUpgrades (Some err)
  | EvLoadBlockDB (Some err) | EvDropAddrIndex (Some err)
  | EvDropTxIndex (Some err) | EvNewServer (Some err) => Some err
  | _ => None
  end.
(** The errors of the failed calls of a trace, in order. *)
Definition failures (t : list event) : list error := omap failure_of t.
(** A failed call of [main] or [ltcdMain]. *)
Definition is_main_failure (e : event) : bool :=
  match e with
  | EvSetLimits (Some _) | EvWinServiceMain _ (Some _) => true
  | _ => match failure_of e with Some _ => true | None => false end
  end.
Definition is_load_config (e : event) : bool :=
  match e with EvLoadConfig _ => true | _ => false end.
Definition is_listener (e : event) : bool :=
  match e with EvInterruptListener => true | _ => false end.
Definition is_flush (e : event) : bool :=
  match e with EvFlush => true | _ => false end.
Definition is_profile_server (e : event) : bool :=
  match e with EvGoProfileServer _ => true | _ => false end.
Definition is_create (e : event) : bool :=
  match e with EvCreate _ _ => true | _ => false end.
Definition is_start_profile (e : event) : bool :=
  match e with EvStartCPUProfile _ => true | _ => false end.
Definition is_stop_profile (e : event) : bool :=
  match e with EvStopCPUProfile => true | _ => false end.
Definition is_file_close (e : event) : bool :=
  match e with EvFileClose _ => true | _ => false end.
Definition is_checkpoint (e : event) : bool :=
  match e with EvInterruptRequested _ => true | _ => false end.
Definition is_error_log (e : event) : bool :=
  match e with EvLog _ Error _ => true | _ => false end.
Definition is_send (e : event) : bool :=
  match e with EvServerChanSend => true | _ => false end.
Definition is_await (e : event) : bool :=
  match e with EvAwaitInterrupt => true | _ => false end.
Definition is_exit (e : event) : bool :=
  match e with EvExit _ => true | _ => false end.
Definition is_win_service (e : event) : bool :=
  match e with EvWinServiceMain _ _ => true | _ => false end.
(** An event of a deferred call that runs. *)
Definition is_cleanup (e : event) : bool :=
  match e with
  | EvFlush | EvStopCPUProfile | EvFileClose _ | EvDbClose | EvServerStop
  | EvServerWaitForShutdown => true
  | _ => false
  end.

(** The text [ltcdMain] logs after a failed call, for the calls it logs. *)
Definition error_text (cfg : config) (e : event) : option string :=
  match e with
  | EvCreate _ (Some err) => Some ("Unable to create cpu profile: " +:+ err)
  | EvDoUpgrades (Some err) | EvLoadBlockDB (Some err)
  | EvDropAddrIndex (Some err) | EvDropTxIndex (Some err) => Some err
  | EvNewServer (Some err) =>
      Some ("Unable to start server on " +:+ show_list (Listeners cfg)
            +:+ ": " +:+ err)
  | _ => None
  end.
(** A failed call after which [ltcdMain] logs the error. *)
Definition is_logged_failure (e : event) : bool :=
  match e with
  | EvCreate _ (Some _) | EvDoUpgrades (Some _) | EvLoadBlockDB (Some _)
  | EvDropAddrIndex (Some _) | EvDropTxIndex (Some _) | EvNewServer (Some _) =>
      true
  | _ => false
  end.

(** [t] ends with the events [l]. *)
Definition ends_with (l t : list event) : Prop := ∃ t', t = t' ++ l.

Module Failing.
Import IndexManager.

(** An environment given by the answers [ltcdMain] and [main] branch on. *)
Definition env_with (lc : result config) (cr up : option error)
    (sig : option nat) (ld : result index_store) (ns lim : option error)
    (os : string) (ws : bool * option error) : Env index_store :=
  {| loadConfig := lc; version := "0.22"; os_Create := fun _ => cr;
     doUpgrades := up; signal := sig; loadBlockDB := ld;
     indexers_DropAddrIndex := indexers.DropAddrIndex;
     indexers_DropTxIndex := indexers.DropTxIndex;
     newServer := fun _ _ => ns; limits_SetLimits := lim;
     GOOS := os; winServiceMain := ws;
     http_ListenAndServe := fun _ => Some "bind: address already in use";
     received := false; served := fun d => d |}.

Definition env_bad_config : Env index_store :=
  env_with (Err "bad flag") None None (Some 2) (Ok Examples.both_indexes)
    None None "linux" (false, None).
Definition env_bad_profile : Env index_store :=
  env_with (Ok Examples.cfg_profile) (Some "permission denied") None (Some 2)
    (Ok Examples.both_indexes) None None "linux" (false, None).
Definition env_bad_upgrade : Env index_store :=
  env_with (Ok Examples.cfg_serve) None (Some "rename failed") (Some 2)
    (Ok Examples.both_indexes) None None "linux" (false, None).
Definition env_bad_db : Env index_store :=
  env_with (Ok Examples.cfg_profile) None None (Some 2) (Err "db locked")
    None None "linux" (false, None).
Definition env_bad_limits : Env index_store :=
  env_with (Ok Examples.cfg_serve) None None (Some 2)
    (Ok Examples.both_indexes) None (Some "rlimit") "linux" (false, None).
Definition env_service : Env index_store :=
  env_with (Ok Examples.cfg_serve) None None (Some 2)
    (Ok Examples.both_indexes) None None "windows" (true, None).
Definition env_windows : Env index_store :=
  env_with (Ok Examples.cfg_serve) None None (Some 2)
    (Ok Examples.both_indexes) None None "windows" (false, None).
End Failing.

(** ** Reflection of the trace properties *)

Section TraceLemmas.
Implicit Types (P Q : event -> bool) (t : list event).

Lemma occurs_existsb P t : occurs P t <-> existsb P t = true.
Proof.
  unfold occurs. rewrite existsb_exists.
  split; intros (e & H1 & H2); exists e; split; auto;
    by apply list_elem_of_In.
Qed.

Lemma occurs_cons P e t : occurs P (e :: t) <-> P e = true ∨ occurs P t.
Proof.
  rewrite !occurs_existsb. simpl. by rewrite orb_true_iff.
Qed.

Lemma occurs_nil P : ¬ occurs P [].
Proof. intros (e & H & _). by apply elem_of_nil in H. Qed.

Lemma never_existsb P t : never P t <-> existsb P t = false.
Proof.
  split.
  - intros H. destruct (existsb P t) eqn:E; [|done].
    apply occurs_existsb in E as (e & He & HP).
    by rewrite (H e He) in HP.
  - intros H e He. destruct (P e) eqn:E; [|done].
    assert (existsb P t = true) as H' by (apply occurs_existsb; by exists e).
    congruence.
Qed.

Lemma never_not_occurs P t : never P t <-> ¬ occurs P t.
Proof.
  rewrite never_existsb, occurs_existsb. by destruct (existsb P t).
Qed.

Lemma precedesb_sound P Q t : precedesb P Q t = true -> precedes P Q t.
Proof.
  induction t as [|e t IH]; simpl; [done|].
  rewrite orb_true_iff, andb_true_iff. intros [[HP HQ]|H].
  - apply occurs_existsb in HQ as (b & Hb & HQ).
    apply list_elem_of_split in Hb as (t2 & t3 & ->).
    by exists [], e, t2, b, t3.
  - destruct (IH H) as (t1 & a & t2 & b & t3 & -> & HP & HQ).
    by exists (e :: t1), a, t2, b, t3.
Qed.

Lemma precedesb_complete P Q t : precedes P Q t -> precedesb P Q t = true.
Proof.
  intros (t1 & a & t2 & b & t3 & -> & HP & HQ).
  induction t1 as [|e t1 IH]; simpl.
  - rewrite HP. simpl. apply orb_true_iff. left.
    apply occurs_existsb. exists b. split; [|done].
    apply elem_of_app. right. apply elem_of_cons. by left.
  - rewrite IH. apply orb_true_r.
Qed.

Lemma guardedb_sound_gen P Q seen t :
  guardedb P Q seen t = true ->
  ∀ t1 b t2, t = t1 ++ b :: t2 -> Q b = true -> seen = true ∨ occurs P t1.
Proof.
  revert seen. induction t as [|e t IH]; intros seen H t1 b t2 Heq HQ.
  - by destruct t1.
  - simpl in H. apply andb_true_iff in H as [H1 H2].
    destruct t1 as [|e' t1]; simplify_eq/=.
    + rewrite HQ in H1. simpl in H1. by left.
    + destruct (IH _ H2 t1 b t2 eq_refl HQ) as [Hs|Ho].
      * apply orb_true_iff in Hs as [->|HP]; [by left|].
        right. apply occurs_cons. by left.
      * right. apply occurs_cons. by right.
Qed.

Lemma guardedb_sound P Q t : guardedb P Q false t = true -> guarded_by P Q t.
Proof.
  intros H t1 b t2 Heq HQ.
  by destruct (guardedb_sound_gen _ _ _ _ H t1 b t2 Heq HQ).
Qed.

Lemma count_app P t1 t2 : count P (t1 ++ t2) = count P t1 + count P t2.
Proof. induction t1 as [|e t1 IH]; simpl; [done|]. rewrite IH. lia. Qed.

Lemma count_zero_never P t : count P t = 0 <-> never P t.
Proof.
  rewrite never_existsb.
  induction t as [|e t IH]; simpl; [done|].
  destruct (P e); simpl; [split; [lia|done]|done].
Qed.

Lemma count_pos P e t : e ∈ t -> P e = true -> 1 <= count P t.
Proof.
  intros He HP. apply list_elem_of_split in He as (t1 & t2 & ->).
  rewrite count_app. simpl. rewrite HP. lia.
Qed.

(** In a trace with exactly one [P] event and exactly one [Q] event, the
    order of the two is strict. *)
Lemma once_precedes_strict P Q t :
  once P t -> once Q t -> precedes P Q t -> ¬ precedes Q P t.
Proof.
  unfold once. intros HP HQ (t1 & a & t2 & b & t3 & -> & Ha & Hb)
    (u1 & b' & u2 & a' & u3 & Heq & Hb' & Ha').
  rewrite count_app in HP, HQ. simpl in HP, HQ.
  rewrite count_app in HP, HQ. simpl in HP, HQ.
  rewrite Ha in HP. rewrite Hb in HQ.
  assert (count P (b :: t3) = 0) as P0.
  { simpl. destruct (P b); lia. }
  assert (count Q (t1 ++ a :: t2) = 0) as Q0.
  { rewrite count_app. simpl. destruct (Q a); lia. }
  change (t1 ++ a :: t2 ++ b :: t3) with (t1 ++ (a :: t2) ++ b :: t3) in Heq.
  change (u1 ++ b' :: u2 ++ a' :: u3) with (u1 ++ [b'] ++ (u2 ++ a' :: u3)) in Heq.
  rewrite !app_assoc in Heq.
  apply app_eq_inv in Heq as [(k & E1 & E2)|(k & E1 & E2)].
  - assert (1 <= count Q (t1 ++ a :: t2)); [|lia].
    apply (count_pos Q b'); [|done]. rewrite E1.
    rewrite !elem_of_app, elem_of_cons. auto.
  - assert (1 <= count P (b :: t3)); [|lia].
    apply (count_pos P a'); [|done]. rewrite E2.
    rewrite !elem_of_app, elem_of_cons. auto.
Qed.
End TraceLemmas.

Section SplitLemmas.
Implicit Types (P Q : event -> bool) (t : list event).

(** A trace with at most one [P] event splits around it in one way. *)
Lemma split_once P t t1 e t2 :
  t = t1 ++ e :: t2 -> P e = true -> count P t <= 1 ->
  split_at P t = Some (t1, t2).
Proof.
  intros -> HP. induction t1 as [|a t1 IH]; simpl.
  - by rewrite HP.
  - intros Hc. destruct (P a) eqn:Ea.
    + exfalso. rewrite count_app in Hc. simpl in Hc. rewrite HP in Hc. lia.
    + by rewrite IH.
Qed.

(** The error of a fatal event of a trace is among the errors of the
    fatal events of the trace. *)
Lemma fatal_in_trace t ev err :
  ev ∈ t -> fatal_after_open ev = Some err ->
  err ∈ omap fatal_after_open t.
Proof. intros H1 H2. apply list_elem_of_omap. by exists ev. Qed.
End SplitLemmas.

(** ** Running the embedding *)

(** Splits on the innermost answer of the environment the goal branches
    on. *)
Ltac step_case :=
  match goal with
  | |- context [match ?x with _ => _ end] =>
      lazymatch x with
      | context [match _ with _ => _ end] => fail
      | _ => destruct x eqn:?
      end
  end.

(** Unfolds a call of [ltcdMain] or [main] and splits on every answer of
    the environment the body branches on. *)
Ltac run_ltcdMain :=
  unfold main, ltcdMain_outcome, ltcdMain_trace, ltcdMain_db, ltcdMain,
    ltcdMain_body, interruptRequested, await_interrupt, when, log;
  cbv beta iota zeta delta
    [bind emit defer return_ ret set_db tick block closed_at init nonempty
     trace defers looks db fst snd];
  repeat (step_case; cbv beta iota);
  simpl.

(** Closes a goal about a computed trace by evaluating its checker. *)
Ltac trace_goal :=
  first [ reflexivity
        | apply guardedb_sound; reflexivity
        | apply precedesb_sound; reflexivity
        | apply never_existsb; reflexivity
        | apply occurs_existsb; reflexivity ].

(** Refutes an occurrence hypothesis on a computed trace. *)
Ltac no_occurrence :=
  match goal with
  | H : occurs _ _ |- _ => apply occurs_existsb in H; discriminate H
  | H : never _ _ |- _ => apply never_existsb in H; discriminate H
  end.

(** Finds the two sides of a computed trace around its interrupt. *)
Ltac split_interrupt H :=
  apply (split_once is_interrupted) in H; [|reflexivity|cbn; lia];
  cbn in H; simplify_eq.

(** ** Sample runs *)

(** A run in which every step succeeds and the signal arrives while
    serving. *)
Example serve_run :
  ltcdMain (Examples.env_of Examples.cfg_serve (Some 2)) false
  = ([EvLoadConfig None; EvDefer DeferFlush; EvInterruptListener;
      EvDefer (DeferInfo "Shutdown complete");
      EvLog ltcdLog Info "Version 0.22"; EvDoUpgrades None;
      EvInterruptRequested false; EvLoadBlockDB None; EvDefer DeferDbClose;
      EvInterruptRequested false; EvNewServer None; EvDefer DeferServerStop;
      EvServerStart; EvAwaitInterrupt;
      EvLog ltcdLog Info "Gracefully shutting down the server...";
      EvServerStop; EvServerWaitForShutdown;
      EvLog srvrLog Info "Server shutdown complete";
      EvLog ltcdLog Info "Gracefully shutting down the database...";
      EvDbClose; EvLog ltcdLog Info "Shutdown complete"; EvFlush],
     Some Examples.both_indexes, Returns None).
Proof. reflexivity. Qed.

(** Without a shutdown signal the call never returns and no deferred call
    runs. *)
Example serve_for_ever :
  ltcdMain_outcome (Examples.env_of Examples.cfg_serve None) false = Blocks ∧
  never is_close (ltcdMain_trace (Examples.env_of Examples.cfg_serve None) false).
Proof. split; [reflexivity|]. apply never_existsb. reflexivity. Qed.

(** A failing [newServer] makes the process exit with code 1, after the
    database was closed. *)
Example no_server_exit :
  (main Examples.env_no_server).2 = Exit 1 ∧
  precedes is_close is_error_exit (main Examples.env_no_server).1.
Proof. split; [reflexivity|]. apply precedesb_sound. reflexivity. Qed.

(** With both flags set, only the Address Index is dropped. *)
Example drop_both_run :
  ltcdMain_db (Examples.env_of Examples.cfg_drop_both (Some 2)) false
  = Some {[IndexManager.TransactionIndex := {["tx1" := "block1:0"]}]}.
Proof. vm_compute. reflexivity. Qed.

(** The scenario of the spec: at genesis, connect [b1], then disconnect. *)
Example connect_b1 :
  ∃ S1, BlockStore.ConnectBlock "b1" [("tx0", 0)] Examples.at_genesis = Ok S1 ∧
        BlockStore.BestTip S1 = Some ("b1", 1) ∧
        BlockStore.DisconnectTip S1 = Ok ("b1", Examples.at_genesis) ∧
        BlockStore.BestTip Examples.at_genesis = Some ("genesis", 0) ∧
        BlockStore.DisconnectTip Examples.at_genesis = Err "EmptyChainError".
Proof. eexists. repeat split; vm_compute; reflexivity. Qed.

(** Two migration steps take a version 0 store to version 2. *)
Example upgrade_v0 :
  UpgradeEngine.upgrade 2 Examples.steps2 Examples.store_v0
  = (Examples.store_v2, None).
Proof. vm_compute. reflexivity. Qed.

(** ** The lifecycle *)

(** C1, as the code has it: in every run of [ltcdMain] the upgrade step has
    run to completion before the block database is opened, the database has
    been opened before any maintenance index drop and before the serving
    components are constructed, the server is constructed before it is
    started, and a run that performs an index drop neither constructs nor
    starts the serving components. *)
Theorem startup_order {DB} (env : Env DB) (ch : bool) :
  guarded_by is_upgraded is_open (ltcdMain_trace env ch) ∧
  guarded_by is_opened is_drop (ltcdMain_trace env ch) ∧
  guarded_by is_opened is_construct (ltcdMain_trace env ch) ∧
  guarded_by is_constructed is_start (ltcdMain_trace env ch) ∧
  (occurs is_drop (ltcdMain_trace env ch) ->
   never is_construct (ltcdMain_trace env ch) ∧
   never is_start (ltcdMain_trace env ch)).
Proof.
  run_ltcdMain.
  all: repeat split; try trace_goal; intros; try no_occurrence; trace_goal.
Qed.

Lemma startup_order_witness :
  occurs is_drop
    (ltcdMain_trace (Examples.env_of Examples.cfg_drop_addr (Some 2)) false) ∧
  guarded_by is_upgraded is_open
    (ltcdMain_trace (Examples.env_of Examples.cfg_drop_addr (Some 2)) false) ∧
  never is_construct
    (ltcdMain_trace (Examples.env_of Examples.cfg_drop_addr (Some 2)) false).
Proof.
  assert (occurs is_drop
            (ltcdMain_trace (Examples.env_of Examples.cfg_drop_addr (Some 2)) false))
    as Hocc by (apply occurs_existsb; reflexivity).
  split; [exact Hocc|].
  destruct (startup_order (Examples.env_of Examples.cfg_drop_addr (Some 2)) false)
    as (H1 & _ & _ & _ & H5).
  split; [exact H1|]. exact (proj1 (H5 Hocc)).
Defined.

(** C1, as the spec states it, fails: in a run in which every step succeeds
    and the server is started, the block database is not opened before the
    upgrade step; the upgrade step comes first. *)
Lemma startup_order_counterexample :
  ltcdMain_outcome (Examples.env_of Examples.cfg_serve (Some 2)) false
    = Returns None ∧
  occurs is_start
    (ltcdMain_trace (Examples.env_of Examples.cfg_serve (Some 2)) false) ∧
  ¬ precedes is_open is_upgrade
    (ltcdMain_trace (Examples.env_of Examples.cfg_serve (Some 2)) false) ∧
  precedes is_upgrade is_open
    (ltcdMain_trace (Examples.env_of Examples.cfg_serve (Some 2)) false).
Proof.
  split; [reflexivity|]. split; [apply occurs_existsb; reflexivity|]. split.
  - intros H. apply precedesb_complete in H. vm_compute in H. discriminate H.
  - apply precedesb_sound. reflexivity.
Qed.

(** C2: whenever [ltcdMain] returns after the block database was opened,
    the database handle is closed, exactly once; and when the server was
    constructed as well, the server is stopped, then awaited, and only then
    the handle is closed, each exactly once and in that order. *)
Theorem shutdown_order {DB} (env : Env DB) (ch : bool) (r : option error) :
  ltcdMain_outcome env ch = Returns r ->
  occurs is_opened (ltcdMain_trace env ch) ->
  once is_close (ltcdMain_trace env ch) ∧
  precedes is_opened is_close (ltcdMain_trace env ch) ∧
  (occurs is_constructed (ltcdMain_trace env ch) ->
   once is_stop (ltcdMain_trace env ch) ∧
   once is_wait (ltcdMain_trace env ch) ∧
   precedes is_stop is_wait (ltcdMain_trace env ch) ∧
   precedes is_wait is_close (ltcdMain_trace env ch) ∧
   ¬ precedes is_wait is_stop (ltcdMain_trace env ch) ∧
   ¬ precedes is_close is_wait (ltcdMain_trace env ch)).
Proof.
  intros Hr Ho.
  assert (once is_close (ltcdMain_trace env ch) ∧
          precedes is_opened is_close (ltcdMain_trace env ch) ∧
          (occurs is_constructed (ltcdMain_trace env ch) ->
           once is_stop (ltcdMain_trace env ch) ∧
           once is_wait (ltcdMain_trace env ch) ∧
           precedes is_stop is_wait (ltcdMain_trace env ch) ∧
           precedes is_wait is_close (ltcdMain_trace env ch)))
    as (H1 & H2 & H3).
  { revert Hr Ho. run_ltcdMain.
    all: intros; try no_occurrence; try discriminate.
    all: repeat split; try trace_goal; intros; try no_occurrence; trace_goal. }
  split; [done|]. split; [done|]. intros Hc.
  destruct (H3 Hc) as (H4 & H5 & H6 & H7).
  repeat split; try done; by apply once_precedes_strict.
Qed.

Lemma shutdown_order_witness :
  ltcdMain_outcome (Examples.env_of Examples.cfg_profile (Some 5)) true
    = Returns None ∧
  occurs is_opened
    (ltcdMain_trace (Examples.env_of Examples.cfg_profile (Some 5)) true) ∧
  occurs is_constructed
    (ltcdMain_trace (Examples.env_of Examples.cfg_profile (Some 5)) true) ∧
  once is_stop
    (ltcdMain_trace (Examples.env_of Examples.cfg_profile (Some 5)) true) ∧
  precedes is_wait is_close
    (ltcdMain_trace (Examples.env_of Examples.cfg_profile (Some 5)) true).
Proof.
  assert (occurs is_opened
            (ltcdMain_trace (Examples.env_of Examples.cfg_profile (Some 5)) true))
    as Ho by (apply occurs_existsb; reflexivity).
  assert (occurs is_constructed
            (ltcdMain_trace (Examples.env_of Examples.cfg_profile (Some 5)) true))
    as Hc by (apply occurs_existsb; reflexivity).
  split; [reflexivity|]. split; [exact Ho|]. split; [exact Hc|].
  destruct (shutdown_order (Examples.env_of Examples.cfg_profile (Some 5)) true
              None eq_refl Ho) as (_ & _ & H3).
  destruct (H3 Hc) as (H1 & _ & _ & H5 & _).
  split; [exact H1 | exact H5].
Defined.

(** C3: when an index drop or the construction of the server fails,
    [ltcdMain] returns that error, no serving component has been created or
    started, and the database handle, opened before the failure, is closed
    after it, exactly once. *)
Theorem fatal_after_open_closes {DB} (env : Env DB) (ch : bool) ev err :
  ev ∈ ltcdMain_trace env ch ->
  fatal_after_open ev = Some err ->
  ltcdMain_outcome env ch = Returns (Some err) ∧
  never is_serving (ltcdMain_trace env ch) ∧
  once is_close (ltcdMain_trace env ch) ∧
  precedes is_opened is_fatal (ltcdMain_trace env ch) ∧
  precedes is_fatal is_close (ltcdMain_trace env ch).
Proof.
  intros Hmem Hfatal. pose proof (fatal_in_trace _ _ _ Hmem Hfatal) as Herr.
  clear Hmem Hfatal. revert Herr. run_ltcdMain.
  all: intros Herr; try (by apply elem_of_nil in Herr).
  all: apply list_elem_of_singleton in Herr as ->; repeat split; trace_goal.
Qed.

Lemma fatal_after_open_closes_witness :
  EvNewServer (Some "listen tcp :9333: address in use")
    ∈ ltcdMain_trace Examples.env_no_server false ∧
  fatal_after_open (EvNewServer (Some "listen tcp :9333: address in use"))
    = Some "listen tcp :9333: address in use" ∧
  ltcdMain_outcome Examples.env_no_server false
    = Returns (Some "listen tcp :9333: address in use") ∧
  once is_close (ltcdMain_trace Examples.env_no_server false).
Proof.
  assert (EvNewServer (Some "listen tcp :9333: address in use")
            ∈ ltcdMain_trace Examples.env_no_server false) as Hmem.
  { vm_compute. repeat first [apply list_elem_of_here | apply list_elem_of_further]. }
  split; [exact Hmem|]. split; [reflexivity|].
  destruct (fatal_after_open_closes Examples.env_no_server false _
              "listen tcp :9333: address in use" Hmem eq_refl)
    as (H1 & _ & H3 & _).
  split; [exact H1 | exact H3].
Defined.

(** ** The Index Manager and the maintenance drops *)

Section IndexManagerLemmas.
Import IndexManager.

Lemma HasIndex_false k (s : index_store) : HasIndex k s = false <-> s !! k = None.
Proof.
  unfold HasIndex. rewrite bool_decide_eq_false, <- eq_None_not_Some. done.
Qed.

(** Whatever the store holds, dropping the Transaction Index leaves the
    store without the data of either index. *)
Lemma DropIndex_tx (s : index_store) :
  DropIndex TransactionIndex s
  = drop_data TransactionIndex (drop_data AddressIndex s).
Proof.
  unfold DropIndex, drop_plan. destruct (HasIndex AddressIndex s) eqn:E; simpl.
  - done.
  - apply HasIndex_false in E. f_equal. symmetry. by apply delete_id.
Qed.

Lemma DropIndex_addr (s : index_store) :
  DropIndex AddressIndex s = drop_data AddressIndex s.
Proof. done. Qed.

Lemma HasIndex_DropIndex_tx k (s : index_store) :
  HasIndex k (DropIndex TransactionIndex s) = false.
Proof.
  rewrite DropIndex_tx. apply HasIndex_false. unfold drop_data, index_store in *.
  destruct k.
  - apply lookup_delete_eq.
  - rewrite lookup_delete_ne by done. apply lookup_delete_eq.
Qed.
End IndexManagerLemmas.

(** C4: with a maintenance flag set, no run of [ltcdMain] constructs or
    starts the serving components, and a run that opens the database and
    meets no interrupt performs a drop; a run in which a drop succeeds
    returns nil and closes the database handle; and with the indexers of the
    spec, a run that drops the Transaction Index leaves the store as if the
    Address Index had been dropped first and the data of the Transaction
    Index after it, with neither index left. *)
Theorem drop_and_exit :
  (∀ DB (env : Env DB) (ch : bool) cfg,
     loadConfig env = Ok cfg ->
     DropAddrIndex cfg = true ∨ DropTxIndex cfg = true ->
     never is_construct (ltcdMain_trace env ch) ∧
     never is_start (ltcdMain_trace env ch) ∧
     (occurs is_opened (ltcdMain_trace env ch) ->
      never is_interrupted (ltcdMain_trace env ch) ->
      once is_drop (ltcdMain_trace env ch))) ∧
  (∀ DB (env : Env DB) (ch : bool),
     occurs is_drop_ok (ltcdMain_trace env ch) ->
     ltcdMain_outcome env ch = Returns None ∧
     never is_construct (ltcdMain_trace env ch) ∧
     never is_start (ltcdMain_trace env ch) ∧
     once is_close (ltcdMain_trace env ch)) ∧
  (∀ (env : Env IndexManager.index_store) (ch : bool),
     indexers_DropTxIndex env = indexers.DropTxIndex ->
     occurs is_drop_tx (ltcdMain_trace env ch) ->
     ∃ d, loadBlockDB env = Ok d ∧
          ltcdMain_db env ch
          = Some (IndexManager.drop_data IndexManager.TransactionIndex
                    (IndexManager.DropIndex IndexManager.AddressIndex d)) ∧
          (IndexManager.HasIndex IndexManager.AddressIndex d = true ->
           IndexManager.drop_plan IndexManager.TransactionIndex d
           = [IndexManager.AddressIndex; IndexManager.TransactionIndex]) ∧
          ∀ k, ∀ d', ltcdMain_db env ch = Some d' ->
                     IndexManager.HasIndex k d' = false).
Proof.
  split; [|split].
  - intros DB env ch cfg Hcfg Hflag. revert Hflag. run_ltcdMain.
    all: intros Hflag; simplify_eq.
    all: try (destruct Hflag; congruence).
    all: repeat split; try trace_goal; intros; try no_occurrence; trace_goal.
  - intros DB env ch. run_ltcdMain.
    all: intros; try no_occurrence; repeat split; trace_goal.
  - intros env ch Htx. run_ltcdMain.
    all: intros; try no_occurrence.
    all: match goal with
         | H : loadBlockDB _ = Ok ?d |- _ => exists d
         end.
    all: match goal with
         | H : indexers_DropTxIndex _ _ = _ |- _ =>
             rewrite Htx in H; unfold indexers.DropTxIndex in H; simplify_eq
         end.
    all: split; [done|]; split; [by rewrite DropIndex_tx, DropIndex_addr|].
    all: split; [intros Ha; unfold IndexManager.drop_plan; by rewrite Ha|].
    all: intros k d' ?; simplify_eq; apply HasIndex_DropIndex_tx.
Qed.

Lemma drop_and_exit_witness :
  loadConfig (Examples.env_of Examples.cfg_drop_tx (Some 2))
    = Ok Examples.cfg_drop_tx ∧
  DropTxIndex Examples.cfg_drop_tx = true ∧
  occurs is_drop_ok
    (ltcdMain_trace (Examples.env_of Examples.cfg_drop_tx (Some 2)) false) ∧
  occurs is_drop_tx
    (ltcdMain_trace (Examples.env_of Examples.cfg_drop_tx (Some 2)) false) ∧
  ltcdMain_outcome (Examples.env_of Examples.cfg_drop_tx (Some 2)) false
    = Returns None ∧
  never is_construct
    (ltcdMain_trace (Examples.env_of Examples.cfg_drop_tx (Some 2)) false) ∧
  ∀ k d', ltcdMain_db (Examples.env_of Examples.cfg_drop_tx (Some 2)) false
          = Some d' ->
          IndexManager.HasIndex k d' = false.
Proof.
  assert (occurs is_drop_ok
            (ltcdMain_trace (Examples.env_of Examples.cfg_drop_tx (Some 2)) false))
    as Hocc by (apply occurs_existsb; reflexivity).
  assert (occurs is_drop_tx
            (ltcdMain_trace (Examples.env_of Examples.cfg_drop_tx (Some 2)) false))
    as Htx by (apply occurs_existsb; reflexivity).
  destruct drop_and_exit as (Hflag & Hok & Hspec).
  destruct (Hflag _ (Examples.env_of Examples.cfg_drop_tx (Some 2)) false
              Examples.cfg_drop_tx eq_refl (or_intror eq_refl)) as (H0 & _).
  destruct (Hok _ _ _ Hocc) as (H1 & _).
  destruct (Hspec (Examples.env_of Examples.cfg_drop_tx (Some 2)) false
              eq_refl Htx) as (d & _ & _ & _ & Hk).
  split; [reflexivity|]. split; [reflexivity|].
  split; [exact Hocc|]. split; [exact Htx|].
  split; [exact H1|]. split; [exact H0|]. exact Hk.
Defined.

(** C5: in every store in which the Address Index exists,
    [DropIndex(TransactionIndex)] drops the Address Index and then the
    Transaction Index, and afterwards [HasIndex] is false for both. *)
Theorem drop_tx_removes_both (s : IndexManager.index_store) :
  IndexManager.HasIndex IndexManager.AddressIndex s = true ->
  IndexManager.drop_plan IndexManager.TransactionIndex s
  = [IndexManager.AddressIndex; IndexManager.TransactionIndex] ∧
  IndexManager.HasIndex IndexManager.AddressIndex
    (IndexManager.DropIndex IndexManager.TransactionIndex s) = false ∧
  IndexManager.HasIndex IndexManager.TransactionIndex
    (IndexManager.DropIndex IndexManager.TransactionIndex s) = false.
Proof.
  intros Ha. split; [|split].
  - unfold IndexManager.drop_plan. by rewrite Ha.
  - apply HasIndex_DropIndex_tx.
  - apply HasIndex_DropIndex_tx.
Qed.

Lemma drop_tx_removes_both_witness :
  IndexManager.HasIndex IndexManager.AddressIndex Examples.both_indexes = true ∧
  IndexManager.HasIndex IndexManager.AddressIndex
    (IndexManager.DropIndex IndexManager.TransactionIndex Examples.both_indexes)
  = false ∧
  IndexManager.HasIndex IndexManager.TransactionIndex
    (IndexManager.DropIndex IndexManager.TransactionIndex Examples.both_indexes)
  = false.
Proof.
  split; [vm_compute; reflexivity|].
  apply (drop_tx_removes_both Examples.both_indexes). vm_compute. reflexivity.
Defined.

(** ** Interrupts during startup *)

(** C6: when the interrupt has been received before the first checkpoint
    of [ltcdMain], the database is never opened, no index is dropped and no
    server is constructed, and a run that reaches the checkpoint finds the
    interrupt there and returns nil; when it has been received before the
    second checkpoint, no index is dropped and no server is constructed or
    started, and a run that opened the database finds the interrupt, closes
    the handle exactly once and returns nil.  Whenever a checkpoint finds
    the interrupt, nothing but logging and deferred calls follows it: no
    further startup step is taken, and the database handle is closed,
    exactly once, if it had been opened, and not touched otherwise. *)
Theorem interrupt_skips_startup {DB} (env : Env DB) (ch : bool) :
  (∀ n, signal env = Some n ->
     (n = 0 ->
      never is_open (ltcdMain_trace env ch) ∧
      never is_close (ltcdMain_trace env ch) ∧
      (occurs is_upgraded (ltcdMain_trace env ch) ->
       once is_checkpoint (ltcdMain_trace env ch) ∧
       once is_interrupted (ltcdMain_trace env ch) ∧
       ltcdMain_outcome env ch = Returns None)) ∧
     (n <= 1 ->
      never is_drop (ltcdMain_trace env ch) ∧
      never is_construct (ltcdMain_trace env ch) ∧
      never is_start (ltcdMain_trace env ch) ∧
      (occurs is_opened (ltcdMain_trace env ch) ->
       once is_interrupted (ltcdMain_trace env ch) ∧
       once is_close (ltcdMain_trace env ch) ∧
       precedes is_interrupted is_close (ltcdMain_trace env ch) ∧
       ltcdMain_outcome env ch = Returns None))) ∧
  (∀ t1 t2,
     ltcdMain_trace env ch = t1 ++ EvInterruptRequested true :: t2 ->
     never is_startup_step t2 ∧
     (never is_opened t1 -> never is_open t1 ∧ never is_close t2) ∧
     (occurs is_opened t1 ->
      once is_close t2 ∧ never is_drop t1 ∧ never is_construct t1)).
Proof.
  split.
  - intros n. run_ltcdMain.
    all: intros Hn; simplify_eq.
    all: repeat match goal with
                | H : bool_decide _ = true |- _ => apply bool_decide_eq_true in H
                | H : bool_decide _ = false |- _ => apply bool_decide_eq_false in H
                end.
    all: split; intros Hle; try (exfalso; lia).
    all: repeat split; try trace_goal; intros; try no_occurrence; trace_goal.
  - intros t1 t2. run_ltcdMain.
    all: intros Hsplit; split_interrupt Hsplit.
    all: repeat split; try trace_goal; intros; try no_occurrence; trace_goal.
Qed.

Lemma interrupt_skips_startup_witness :
  (signal (Examples.env_of Examples.cfg_profile (Some 0)) = Some 0 ∧
   occurs is_upgraded
     (ltcdMain_trace (Examples.env_of Examples.cfg_profile (Some 0)) false) ∧
   never is_open
     (ltcdMain_trace (Examples.env_of Examples.cfg_profile (Some 0)) false) ∧
   ltcdMain_outcome (Examples.env_of Examples.cfg_profile (Some 0)) false
   = Returns None) ∧
  (signal (Examples.env_of Examples.cfg_profile (Some 1)) = Some 1 ∧
   occurs is_opened
     (ltcdMain_trace (Examples.env_of Examples.cfg_profile (Some 1)) false) ∧
   never is_construct
     (ltcdMain_trace (Examples.env_of Examples.cfg_profile (Some 1)) false) ∧
   once is_close
     (ltcdMain_trace (Examples.env_of Examples.cfg_profile (Some 1)) false)) ∧
  ltcdMain_trace (Examples.env_of Examples.cfg_profile (Some 1)) false
  = Examples.startup_until_open
      ++ EvInterruptRequested true :: Examples.shutdown_after_open ∧
  once is_close Examples.shutdown_after_open.
Proof.
  assert (occurs is_upgraded
            (ltcdMain_trace (Examples.env_of Examples.cfg_profile (Some 0)) false))
    as Hup by (apply occurs_existsb; reflexivity).
  assert (occurs is_opened
            (ltcdMain_trace (Examples.env_of Examples.cfg_profile (Some 1)) false))
    as Hop by (apply occurs_existsb; reflexivity).
  assert (ltcdMain_trace (Examples.env_of Examples.cfg_profile (Some 1)) false
          = Examples.startup_until_open
              ++ EvInterruptRequested true :: Examples.shutdown_after_open)
    as Hsplit by reflexivity.
  destruct (interrupt_skips_startup
              (Examples.env_of Examples.cfg_profile (Some 0)) false)
    as (Hsig0 & _).
  destruct (Hsig0 0 eq_refl) as (H0 & _).
  destruct (H0 eq_refl) as (H01 & _ & H03).
  destruct (H03 Hup) as (_ & _ & H04).
  destruct (interrupt_skips_startup
              (Examples.env_of Examples.cfg_profile (Some 1)) false)
    as (Hsig1 & Htr).
  destruct (Hsig1 1 eq_refl) as (_ & H1).
  destruct (H1 (le_n 1)) as (_ & H12 & _ & H14).
  destruct (H14 Hop) as (_ & H15 & _).
  destruct (Htr _ _ Hsplit) as (_ & _ & H2).
  split; [split; [reflexivity|]; split; [exact Hup|]; split; [exact H01 | exact H04]|].
  split; [split; [reflexivity|]; split; [exact Hop|]; split; [exact H12 | exact H15]|].
  split; [exact Hsplit|]. exact (proj1 (H2 ltac:(apply occurs_existsb; reflexivity))).
Defined.

(** C10: when a startup checkpoint of [ltcdMain] finds the interrupt,
    [ltcdMain] returns nil, what follows the checkpoint in the trace is
    exactly the deferred calls registered before it, last registered first,
    and [main] leaves through its end, with exit code 0 and no call of
    [os.Exit] with an error code. *)
Theorem interrupt_returns_nil {DB} (env : Env DB) :
  (∀ (ch : bool) t1 t2,
     ltcdMain_trace env ch = t1 ++ EvInterruptRequested true :: t2 ->
     ltcdMain_outcome env ch = Returns None ∧
     t2 = unwind (registered t1)) ∧
  (occurs is_interrupted (main env).1 ->
   (main env).2 = Exit 0 ∧ never is_error_exit (main env).1).
Proof.
  split.
  - intros ch t1 t2. run_ltcdMain.
    all: intros Hsplit; split_interrupt Hsplit.
    all: split; reflexivity.
  - run_ltcdMain.
    all: intros; try no_occurrence; split; trace_goal.
Qed.

Lemma interrupt_returns_nil_witness :
  ltcdMain_trace (Examples.env_of Examples.cfg_profile (Some 1)) false
  = Examples.startup_until_open
      ++ EvInterruptRequested true :: Examples.shutdown_after_open ∧
  ltcdMain_outcome (Examples.env_of Examples.cfg_profile (Some 1)) false
    = Returns None ∧
  Examples.shutdown_after_open = unwind (registered Examples.startup_until_open) ∧
  occurs is_interrupted (main (Examples.env_of Examples.cfg_profile (Some 1))).1 ∧
  (main (Examples.env_of Examples.cfg_profile (Some 1))).2 = Exit 0.
Proof.
  assert (ltcdMain_trace (Examples.env_of Examples.cfg_profile (Some 1)) false
          = Examples.startup_until_open
              ++ EvInterruptRequested true :: Examples.shutdown_after_open)
    as Hsplit by reflexivity.
  assert (occurs is_interrupted
            (main (Examples.env_of Examples.cfg_profile (Some 1))).1) as Hocc
    by (apply occurs_existsb; reflexivity).
  destruct (interrupt_returns_nil (Examples.env_of Examples.cfg_profile (Some 1)))
    as (Hl & Hm).
  destruct (Hl false _ _ Hsplit) as (H1 & H2).
  destruct (Hm Hocc) as (H3 & _).
  split; [exact Hsplit|]. split; [exact H1|]. split; [exact H2|].
  split; [exact Hocc | exact H3].
Defined.

(** ** Both maintenance flags *)

(** C9: with both [DropAddrIndex] and [DropTxIndex] set, no run of
    [ltcdMain] calls [indexers.DropTxIndex] or constructs the server; a run
    that opens the database and finds no interrupt calls
    [indexers.DropAddrIndex] once, leaves the store as that call left it and
    returns what that call returned. *)
Theorem both_flags_drop_addr_only {DB} (env : Env DB) (ch : bool) cfg :
  loadConfig env = Ok cfg ->
  DropAddrIndex cfg = true ->
  DropTxIndex cfg = true ->
  never is_drop_tx (ltcdMain_trace env ch) ∧
  never is_construct (ltcdMain_trace env ch) ∧
  (occurs is_opened (ltcdMain_trace env ch) ->
   never is_interrupted (ltcdMain_trace env ch) ->
   ∃ d, loadBlockDB env = Ok d ∧
        once is_drop_addr (ltcdMain_trace env ch) ∧
        ltcdMain_db env ch = Some (indexers_DropAddrIndex env d).1 ∧
        ltcdMain_outcome env ch = Returns (indexers_DropAddrIndex env d).2).
Proof.
  intros Hcfg Ha Ht. revert Ha Ht. run_ltcdMain.
  all: intros Ha Ht; simplify_eq; try congruence.
  all: repeat split; try trace_goal; intros; try no_occurrence.
  all: match goal with
       | H : loadBlockDB _ = Ok ?d |- _ => exists d
       end.
  all: match goal with
       | H : indexers_DropAddrIndex _ _ = _ |- _ => rewrite H
       end.
  all: repeat split; trace_goal.
Qed.

Lemma both_flags_drop_addr_only_witness :
  loadConfig (Examples.env_of Examples.cfg_drop_both (Some 2))
    = Ok Examples.cfg_drop_both ∧
  DropAddrIndex Examples.cfg_drop_both = true ∧
  DropTxIndex Examples.cfg_drop_both = true ∧
  never is_drop_tx
    (ltcdMain_trace (Examples.env_of Examples.cfg_drop_both (Some 2)) false) ∧
  ltcdMain_db (Examples.env_of Examples.cfg_drop_both (Some 2)) false
  = Some (IndexManager.drop_data IndexManager.AddressIndex Examples.both_indexes).
Proof.
  split; [reflexivity|]. split; [reflexivity|]. split; [reflexivity|].
  destruct (both_flags_drop_addr_only
              (Examples.env_of Examples.cfg_drop_both (Some 2)) false
              Examples.cfg_drop_both eq_refl eq_refl eq_refl)
    as (H1 & _ & H3).
  split; [exact H1|].
  destruct H3 as (d & Hd & _ & Hdb & _).
  - apply occurs_existsb. reflexivity.
  - apply never_existsb. reflexivity.
  - vm_compute in Hd. injection Hd as <-. exact Hdb.
Defined.

(** ** The Block Store *)

Section BlockStoreLemmas.
Import BlockStore.

Lemma ConnectBlock_ok b sr (S : chain_state) :
  connectable b S ->
  ConnectBlock b sr S
  = Ok {| tip := b; entries := entries S; journal := <[b := sr]> (journal S) |}.
Proof.
  intros (e & He & Hp). unfold ConnectBlock. rewrite He.
  by rewrite decide_True.
Qed.

Lemma ConnectBlock_inv b sr (S S1 : chain_state) :
  ConnectBlock b sr S = Ok S1 -> connectable b S.
Proof.
  unfold ConnectBlock, connectable. intros H.
  destruct (entries S !! b) as [e|]; [|done].
  destruct (decide (parent e = Some (tip S))); [|done]. by exists e.
Qed.

(** Walking [n] parent links down loses [n] in height. *)
Lemma ancestor_height (S : chain_state) n b a eb :
  heights_ok S -> entries S !! b = Some eb ->
  ancestor (entries S) n b = Some a ->
  ∃ ea, entries S !! a = Some ea ∧ height eb = height ea + n.
Proof.
  intros Hh. revert b eb. induction n as [|n IH]; intros b eb Hb Ha; simpl in Ha.
  - injection Ha as <-. exists eb. split; [done|lia].
  - rewrite Hb in Ha. destruct (parent eb) as [p|] eqn:Hp; [|done].
    destruct (Hh b eb p Hb Hp) as (ep & Hep & Hht).
    destruct (IH p ep Hep Ha) as (ea & Hea & Hha).
    exists ea. split; [done|lia].
Qed.

(** In a consistent state a connectable block has no spend record yet: it
    stands above the tip, and the journal holds blocks at or below it. *)
Lemma connectable_fresh b (S : chain_state) :
  consistent S -> connectable b S -> journal S !! b = None.
Proof.
  intros (Hh & Hj) (e & He & Hp).
  destruct (journal S !! b) as [sr|] eqn:Hb; [|done]. exfalso.
  destruct (Hj b) as (n & Hn); [by rewrite Hb|].
  destruct (Hh b e (tip S) He Hp) as (et & Het & Hht).
  destruct (ancestor_height S n (tip S) b et Hh Het Hn) as (e' & He' & Hh').
  rewrite He in He'. injection He' as <-. lia.
Qed.

(** Consistency is an invariant of [ConnectBlock] ... *)
Lemma ConnectBlock_consistent b sr (S S1 : chain_state) :
  consistent S -> ConnectBlock b sr S = Ok S1 -> consistent S1.
Proof.
  intros (Hh & Hj) Hc. pose proof (ConnectBlock_inv _ _ _ _ Hc) as Hcon.
  rewrite (ConnectBlock_ok b sr S Hcon) in Hc. injection Hc as <-.
  destruct Hcon as (e & He & Hp).
  split; [exact Hh|]. intros b' Hb'. simpl in *.
  apply lookup_insert_is_Some in Hb' as [<-|[Hne Hb']].
  - by exists 0.
  - destruct (Hj b' Hb') as (n & Hn). exists (Datatypes.S n). simpl. by rewrite He, Hp.
Qed.

(** ... and of [DisconnectTip]. *)
Lemma DisconnectTip_consistent b (S S2 : chain_state) :
  consistent S -> DisconnectTip S = Ok (b, S2) -> consistent S2.
Proof.
  intros (Hh & Hj). unfold DisconnectTip.
  destruct (entries S !! tip S) as [et|] eqn:Het; [|done].
  destruct (parent et) as [p|] eqn:Hp; [|done].
  intros [= <- <-]. split; [exact Hh|]. intros b' Hb'. simpl in *.
  apply lookup_delete_is_Some in Hb' as [Hne Hb'].
  destruct (Hj b' Hb') as ([|n] & Hn); simpl in Hn.
  - injection Hn as Hn. contradiction.
  - rewrite Het, Hp in Hn. by exists n.
Qed.

(** A state with an empty journal is consistent as soon as its index is a
    tree. *)
Lemma empty_journal_consistent (S : chain_state) :
  heights_ok S -> journal S = ∅ -> consistent S.
Proof.
  intros Hh Hj. split; [exact Hh|]. intros b Hb. rewrite Hj in Hb.
  rewrite lookup_empty in Hb. by destruct Hb.
Qed.

Lemma chain_state_eq (S1 S2 : chain_state) :
  tip S1 = tip S2 -> entries S1 = entries S2 -> journal S1 = journal S2 ->
  S1 = S2.
Proof. destruct S1, S2. simpl. by intros -> -> ->. Qed.
End BlockStoreLemmas.

(** C7: for every chain state [S] and every block [b] connectable at [S],
    [ConnectBlock] succeeds and [DisconnectTip] after it returns [b] and a
    state with the tip and the chain index entries of [S] and the spend
    journal of [S] without an entry for [b].  That state is [S] itself
    whenever [S] holds no spend record for [b], which is so in every
    consistent state. *)
Theorem connect_disconnect_roundtrip
    (S : BlockStore.chain_state) (b : string) (sr : BlockStore.spend_record) :
  BlockStore.connectable b S ->
  ∃ S1 S2,
    BlockStore.ConnectBlock b sr S = Ok S1 ∧
    BlockStore.DisconnectTip S1 = Ok (b, S2) ∧
    BlockStore.tip S2 = BlockStore.tip S ∧
    BlockStore.entries S2 = BlockStore.entries S ∧
    BlockStore.journal S2 = delete b (BlockStore.journal S) ∧
    BlockStore.journal S2 !! b = None ∧
    (BlockStore.journal S !! b = None -> S2 = S) ∧
    (BlockStore.consistent S -> S2 = S).
Proof.
  intros Hc. pose proof (ConnectBlock_ok b sr S Hc) as H1.
  pose proof Hc as (e & He & Hp).
  eexists _, _. split; [exact H1|].
  unfold BlockStore.DisconnectTip. simpl. rewrite He, Hp.
  split; [reflexivity|]. simpl.
  assert (delete b (<[b:=sr]> (BlockStore.journal S))
          = delete b (BlockStore.journal S)) as Hj by apply delete_insert_eq.
  assert (BlockStore.journal S !! b = None ->
          {| BlockStore.tip := BlockStore.tip S;
             BlockStore.entries := BlockStore.entries S;
             BlockStore.journal := delete b (<[b:=sr]> (BlockStore.journal S)) |}
          = S) as Hid.
  { intros Hn. apply chain_state_eq; simpl; try done.
    rewrite Hj. by apply delete_id. }
  repeat split; try done.
  - rewrite Hj. apply lookup_delete_eq.
  - intros Hcons. apply Hid. by apply connectable_fresh.
Qed.

Lemma connect_disconnect_roundtrip_witness :
  BlockStore.connectable "b1" Examples.at_genesis ∧
  BlockStore.consistent Examples.at_genesis ∧
  ∃ S1, BlockStore.ConnectBlock "b1" [("tx0", 0)] Examples.at_genesis = Ok S1 ∧
        BlockStore.DisconnectTip S1 = Ok ("b1", Examples.at_genesis).
Proof.
  assert (BlockStore.connectable "b1" Examples.at_genesis) as Hc.
  { exists Examples.b1_entry. split; vm_compute; reflexivity. }
  assert (BlockStore.consistent Examples.at_genesis) as Hcons.
  { apply empty_journal_consistent; [|reflexivity].
    intros b e p Hb Hp. unfold Examples.at_genesis in Hb. simpl in Hb.
    apply lookup_insert_Some in Hb as [[<- <-]|[_ Hb]].
    - injection Hp as <-. exists Examples.genesis_entry.
      split; vm_compute; reflexivity.
    - apply lookup_insert_Some in Hb as [[<- <-]|[_ Hb]]; [done|].
      by rewrite lookup_empty in Hb. }
  split; [exact Hc|]. split; [exact Hcons|].
  destruct (connect_disconnect_roundtrip Examples.at_genesis "b1" [("tx0", 0)] Hc)
    as (S1 & S2 & H1 & H2 & _ & _ & _ & _ & _ & H8).
  exists S1. split; [exact H1|].
  rewrite <- (H8 Hcons). exact H2.
Defined.

(** ** The Upgrade Engine *)

Section UpgradeEngineLemmas.
Import UpgradeEngine.
Variable current : nat.
Variable steps : nat -> gmap string string -> result (gmap string string).

(** Each committed step bumps the stored version by one. *)
Lemma migrate_version n st st' :
  migrate steps n st = (st', None) ->
  schema_version st' = schema_version st + n.
Proof.
  revert st. induction n as [|n IH]; intros st H; simpl in H.
  - injection H as <-. lia.
  - destruct (steps (schema_version st) (data st)) as [d'|e]; [|done].
    apply IH in H. simpl in H. lia.
Qed.

(** A run that succeeds ends at the current version. *)
Lemma upgrade_ok_version st st' :
  upgrade current steps st = (st', None) -> schema_version st' = current.
Proof.
  unfold upgrade. repeat case_decide.
  - by intros [= <-].
  - done.
  - intros Hm. apply migrate_version in Hm. lia.
Qed.

Lemma upgrade_at_current st :
  schema_version st = current -> upgrade current steps st = (st, None).
Proof. intros H. unfold upgrade. by rewrite decide_True. Qed.
End UpgradeEngineLemmas.

(** C8: run on a store whose version is the current one, the Upgrade
    Engine changes nothing, once or twice in a row; run on a store whose
    version exceeds the current one, it fails with
    [UnsupportedVersionError] and changes nothing; and after any run that
    succeeds, a second run changes nothing. *)
Theorem upgrade_idempotent
    (current : nat)
    (steps : nat -> gmap string string -> result (gmap string string))
    (st : UpgradeEngine.vstore) :
  (UpgradeEngine.schema_version st = current ->
   UpgradeEngine.upgrade current steps st = (st, None) ∧
   UpgradeEngine.upgrade current steps
     (UpgradeEngine.upgrade current steps st).1 = (st, None)) ∧
  (current < UpgradeEngine.schema_version st ->
   UpgradeEngine.upgrade current steps st
   = (st, Some "UnsupportedVersionError")) ∧
  (∀ st', UpgradeEngine.upgrade current steps st = (st', None) ->
          UpgradeEngine.upgrade current steps st' = (st', None)).
Proof.
  split; [|split].
  - intros H. rewrite (upgrade_at_current current steps st H). simpl.
    split; [done|]. by apply upgrade_at_current.
  - intros H. unfold UpgradeEngine.upgrade.
    rewrite decide_False by lia. by rewrite decide_True.
  - intros st' H. apply upgrade_at_current.
    by apply (upgrade_ok_version current steps st).
Qed.

Lemma upgrade_idempotent_witness :
  (UpgradeEngine.schema_version Examples.store_v2 = 2 ∧
   UpgradeEngine.upgrade 2 Examples.steps2 Examples.store_v2
   = (Examples.store_v2, None)) ∧
  (2 < UpgradeEngine.schema_version Examples.store_v3 ∧
   UpgradeEngine.upgrade 2 Examples.steps2 Examples.store_v3
   = (Examples.store_v3, Some "UnsupportedVersionError")) ∧
  (UpgradeEngine.upgrade 2 Examples.steps2 Examples.store_v0
   = (Examples.store_v2, None) ∧
   UpgradeEngine.upgrade 2 Examples.steps2 Examples.store_v2
   = (Examples.store_v2, None)).
Proof.
  split; [|split].
  - split; [reflexivity|].
    apply (proj1 (upgrade_idempotent 2 Examples.steps2 Examples.store_v2)).
    reflexivity.
  - split; [simpl; lia|].
    apply (proj1 (proj2 (upgrade_idempotent 2 Examples.steps2 Examples.store_v3))).
    simpl. lia.
  - assert (UpgradeEngine.upgrade 2 Examples.steps2 Examples.store_v0
            = (Examples.store_v2, None)) as Hup by (vm_compute; reflexivity).
    split; [exact Hup|].
    exact (proj2 (proj2 (upgrade_idempotent 2 Examples.steps2 Examples.store_v0))
             _ Hup).
Defined.

(** * Further properties of [ltcdMain] and [main] *)

(** A trace ends with [l] when its reverse starts with the reverse of
    [l]. *)
Lemma ends_with_reverse (l t r : list event) :
  reverse t = reverse l ++ r -> ends_with l t.
Proof.
  intros H. exists (reverse r).
  rewrite <- (reverse_involutive t), H, reverse_app.
  by rewrite reverse_involutive.
Qed.

(** Finds an event in a computed trace. *)
Ltac solve_elem :=
  repeat first [apply list_elem_of_here | apply list_elem_of_further].

(** Closes a goal about a computed trace, its end or its members. *)
Ltac trace_goal_ext :=
  first [ trace_goal
        | eapply ends_with_reverse; reflexivity
        | solve [solve_elem] ].

(** X1: when [loadConfig] fails, [ltcdMain] returns its error at once: the
    call of [loadConfig] is the whole trace, nothing is deferred, logged or
    flushed, and no database is opened. *)
Theorem config_failure_returns_at_once {DB} (env : Env DB) (ch : bool) err :
  loadConfig env = Err err ->
  ltcdMain env ch = ([EvLoadConfig (Some err)], None, Returns (Some err)).
Proof.
  intros H. unfold ltcdMain, ltcdMain_body. rewrite H. reflexivity.
Qed.

Lemma config_failure_returns_at_once_witness :
  loadConfig Failing.env_bad_config = Err "bad flag" ∧
  ltcdMain Failing.env_bad_config false
  = ([EvLoadConfig (Some "bad flag")], None, Returns (Some "bad flag")).
Proof.
  split; [reflexivity|].
  apply (config_failure_returns_at_once Failing.env_bad_config false "bad flag").
  reflexivity.
Defined.

(** The failed calls of a run are the error it returns, if any. *)
Lemma failures_outcome {DB} (env : Env DB) (ch : bool) :
  failures (ltcdMain_trace env ch)
  = match ltcdMain_outcome env ch with
    | Returns (Some e) => [e]
    | _ => []
    end.
Proof. run_ltcdMain. all: reflexivity. Qed.

(** X13: [ltcdMain] returns an error exactly when one of its calls failed,
    and it is the error of that call; no run has more than one failed
    call. *)
Theorem fail_fast {DB} (env : Env DB) (ch : bool) :
  (∀ e, ltcdMain_outcome env ch = Returns (Some e) <->
        ∃ ev, ev ∈ ltcdMain_trace env ch ∧ failure_of ev = Some e) ∧
  length (failures (ltcdMain_trace env ch)) <= 1.
Proof.
  pose proof (failures_outcome env ch) as H. split.
  - intros e. rewrite <- list_elem_of_omap. fold (failures (ltcdMain_trace env ch)).
    rewrite H. destruct (ltcdMain_outcome env ch) as [[e'|]|].
    + rewrite list_elem_of_singleton. split; [by intros [= ->]|by intros ->].
    + split; [done|]. intros Hf. by apply elem_of_nil in Hf.
    + split; [done|]. intros Hf. by apply elem_of_nil in Hf.
  - rewrite H. destruct (ltcdMain_outcome env ch) as [[e'|]|]; simpl; lia.
Qed.

Lemma fail_fast_witness :
  (∃ ev, ev ∈ ltcdMain_trace Examples.env_no_server false ∧
         failure_of ev = Some "listen tcp :9333: address in use") ∧
  ltcdMain_outcome Examples.env_no_server false
  = Returns (Some "listen tcp :9333: address in use").
Proof.
  assert (∃ ev, ev ∈ ltcdMain_trace Examples.env_no_server false ∧
                failure_of ev = Some "listen tcp :9333: address in use") as Hev.
  { exists (EvNewServer (Some "listen tcp :9333: address in use")).
    split; [vm_compute; solve_elem | reflexivity]. }
  split; [exact Hev|].
  apply (proj1 (fail_fast Examples.env_no_server false)). exact Hev.
Defined.

(** Turns the tests of the body into the propositions they decide. *)
Ltac unbool :=
  repeat match goal with
         | H : bool_decide _ = true |- _ => apply bool_decide_eq_true in H
         | H : bool_decide _ = false |- _ => apply bool_decide_eq_false in H
         end.

(** Refutes an order on a computed trace. *)
Ltac no_order :=
  match goal with
  | H : precedes _ _ _ |- _ => apply precedesb_complete in H; discriminate H
  end.

(** Closes the leaves of a case analysis of a run. *)
Ltac leaf :=
  intros; destruct_or?; destruct_and?; simplify_eq; unbool;
  try congruence; try contradiction; try no_occurrence;
  repeat split; try lazymatch goal with |- ¬ _ => intro end; intros;
  destruct_or?; destruct_and?; simplify_eq;
  try (first [ trace_goal_ext | no_occurrence | no_order | congruence
             | contradiction | assumption | lia ]).

(** X2: when the CPU profile file cannot be created, [ltcdMain] logs and
    returns that error before the upgrade step: profiling never starts, the
    database is never opened, and the run still ends with the log of
    "Shutdown complete" and the flush of the log. *)
Theorem cpu_profile_create_failure {DB} (env : Env DB) (ch : bool) cfg err :
  loadConfig env = Ok cfg ->
  CPUProfile cfg ≠ "" ->
  os_Create env (CPUProfile cfg) = Some err ->
  ltcdMain_outcome env ch = Returns (Some err) ∧
  EvLog ltcdLog Error ("Unable to create cpu profile: " +:+ err)
    ∈ ltcdMain_trace env ch ∧
  never is_start_profile (ltcdMain_trace env ch) ∧
  never is_stop_profile (ltcdMain_trace env ch) ∧
  never is_file_close (ltcdMain_trace env ch) ∧
  never is_upgrade (ltcdMain_trace env ch) ∧
  never is_open (ltcdMain_trace env ch) ∧
  ends_with [EvLog ltcdLog Info "Shutdown complete"; EvFlush]
    (ltcdMain_trace env ch).
Proof.
  run_ltcdMain. all: leaf.
Qed.

Lemma cpu_profile_create_failure_witness :
  loadConfig Failing.env_bad_profile = Ok Examples.cfg_profile ∧
  CPUProfile Examples.cfg_profile ≠ "" ∧
  os_Create Failing.env_bad_profile (CPUProfile Examples.cfg_profile)
  = Some "permission denied" ∧
  ltcdMain_outcome Failing.env_bad_profile false
  = Returns (Some "permission denied") ∧
  never is_upgrade (ltcdMain_trace Failing.env_bad_profile false).
Proof.
  assert (CPUProfile Examples.cfg_profile ≠ "") as Hne by (simpl; discriminate).
  destruct (cpu_profile_create_failure Failing.env_bad_profile false
              Examples.cfg_profile "permission denied" eq_refl Hne eq_refl)
    as (H1 & _ & _ & _ & _ & H6 & _).
  split; [reflexivity|]. split; [exact Hne|]. split; [reflexivity|].
  split; [exact H1 | exact H6].
Defined.

(** X3: whenever [ltcdMain] returns after CPU profiling was started, the
    profile is stopped and then its file closed, each exactly once, after
    any close of the database and any wait for the server, and before the
    log is flushed. *)
Theorem cpu_profile_cleanup_order {DB} (env : Env DB) (ch : bool) cfg r :
  loadConfig env = Ok cfg ->
  ltcdMain_outcome env ch = Returns r ->
  occurs is_start_profile (ltcdMain_trace env ch) ->
  once is_stop_profile (ltcdMain_trace env ch) ∧
  once is_file_close (ltcdMain_trace env ch) ∧
  EvFileClose (CPUProfile cfg) ∈ ltcdMain_trace env ch ∧
  precedes is_start_profile is_stop_profile (ltcdMain_trace env ch) ∧
  precedes is_stop_profile is_file_close (ltcdMain_trace env ch) ∧
  ¬ precedes is_stop_profile is_close (ltcdMain_trace env ch) ∧
  ¬ precedes is_stop_profile is_wait (ltcdMain_trace env ch) ∧
  precedes is_file_close is_flush (ltcdMain_trace env ch).
Proof.
  run_ltcdMain. all: leaf.
Qed.

Lemma cpu_profile_cleanup_order_witness :
  loadConfig (Examples.env_of Examples.cfg_profile (Some 5))
  = Ok Examples.cfg_profile ∧
  ltcdMain_outcome (Examples.env_of Examples.cfg_profile (Some 5)) false
  = Returns None ∧
  occurs is_start_profile
    (ltcdMain_trace (Examples.env_of Examples.cfg_profile (Some 5)) false) ∧
  precedes is_stop_profile is_file_close
    (ltcdMain_trace (Examples.env_of Examples.cfg_profile (Some 5)) false) ∧
  ¬ precedes is_stop_profile is_close
    (ltcdMain_trace (Examples.env_of Examples.cfg_profile (Some 5)) false).
Proof.
  assert (occurs is_start_profile
            (ltcdMain_trace (Examples.env_of Examples.cfg_profile (Some 5)) false))
    as Hocc by (apply occurs_existsb; reflexivity).
  destruct (cpu_profile_cleanup_order
              (Examples.env_of Examples.cfg_profile (Some 5)) false
              Examples.cfg_profile None eq_refl eq_refl Hocc)
    as (_ & _ & _ & _ & H5 & H6 & _).
  split; [reflexivity|]. split; [reflexivity|]. split; [exact Hocc|].
  split; [exact H5 | exact H6].
Defined.

(** X5: when [doUpgrades] fails, [ltcdMain] logs and returns that error
    without looking at the interrupt channel and without opening the
    database. *)
Theorem upgrade_failure_aborts {DB} (env : Env DB) (ch : bool) err :
  doUpgrades env = Some err ->
  occurs is_upgrade (ltcdMain_trace env ch) ->
  ltcdMain_outcome env ch = Returns (Some err) ∧
  EvLog ltcdLog Error err ∈ ltcdMain_trace env ch ∧
  never is_checkpoint (ltcdMain_trace env ch) ∧
  never is_open (ltcdMain_trace env ch) ∧
  ltcdMain_db env ch = None.
Proof.
  run_ltcdMain. all: leaf.
Qed.

Lemma upgrade_failure_aborts_witness :
  doUpgrades Failing.env_bad_upgrade = Some "rename failed" ∧
  occurs is_upgrade (ltcdMain_trace Failing.env_bad_upgrade false) ∧
  ltcdMain_outcome Failing.env_bad_upgrade false
  = Returns (Some "rename failed") ∧
  never is_open (ltcdMain_trace Failing.env_bad_upgrade false).
Proof.
  assert (occurs is_upgrade (ltcdMain_trace Failing.env_bad_upgrade false))
    as Hocc by (apply occurs_existsb; reflexivity).
  destruct (upgrade_failure_aborts Failing.env_bad_upgrade false
              "rename failed" eq_refl Hocc) as (H1 & _ & _ & H4 & _).
  split; [reflexivity|]. split; [exact Hocc|]. split; [exact H1 | exact H4].
Defined.

(** X6: when [loadBlockDB] fails, [ltcdMain] logs and returns that error
    after a single checkpoint; no handle is closed, no index is dropped and
    no server is constructed. *)
Theorem open_failure_aborts {DB} (env : Env DB) (ch : bool) err :
  loadBlockDB env = Err err ->
  occurs is_open (ltcdMain_trace env ch) ->
  ltcdMain_outcome env ch = Returns (Some err) ∧
  EvLog ltcdLog Error err ∈ ltcdMain_trace env ch ∧
  once is_checkpoint (ltcdMain_trace env ch) ∧
  never is_close (ltcdMain_trace env ch) ∧
  never is_drop (ltcdMain_trace env ch) ∧
  never is_construct (ltcdMain_trace env ch) ∧
  ltcdMain_db env ch = None.
Proof.
  run_ltcdMain. all: leaf.
Qed.

Lemma open_failure_aborts_witness :
  loadBlockDB Failing.env_bad_db = Err "db locked" ∧
  occurs is_open (ltcdMain_trace Failing.env_bad_db false) ∧
  ltcdMain_outcome Failing.env_bad_db false = Returns (Some "db locked") ∧
  never is_close (ltcdMain_trace Failing.env_bad_db false).
Proof.
  assert (occurs is_open (ltcdMain_trace Failing.env_bad_db false))
    as Hocc by (apply occurs_existsb; reflexivity).
  destruct (open_failure_aborts Failing.env_bad_db false "db locked"
              eq_refl Hocc) as (H1 & _ & _ & H4 & _).
  split; [reflexivity|]. split; [exact Hocc|]. split; [exact H1 | exact H4].
Defined.

(** X12: every run of [ltcdMain] that loaded its configuration and returns,
    with or without an error, ends with the log of "Shutdown complete"
    followed by the single flush of the log; a run that blocks runs no
    deferred call. *)
Theorem shutdown_complete_last {DB} (env : Env DB) (ch : bool) :
  (∀ r cfg, loadConfig env = Ok cfg ->
            ltcdMain_outcome env ch = Returns r ->
            ends_with [EvLog ltcdLog Info "Shutdown complete"; EvFlush]
              (ltcdMain_trace env ch) ∧
            once is_flush (ltcdMain_trace env ch)) ∧
  (ltcdMain_outcome env ch = Blocks -> never is_cleanup (ltcdMain_trace env ch)).
Proof.
  split.
  - intros r cfg. run_ltcdMain. all: leaf.
  - run_ltcdMain. all: leaf.
Qed.

Lemma shutdown_complete_last_witness :
  loadConfig Failing.env_bad_db = Ok Examples.cfg_profile ∧
  ltcdMain_outcome Failing.env_bad_db false = Returns (Some "db locked") ∧
  ends_with [EvLog ltcdLog Info "Shutdown complete"; EvFlush]
    (ltcdMain_trace Failing.env_bad_db false) ∧
  ltcdMain_outcome (Examples.env_of Examples.cfg_serve None) true = Blocks ∧
  never is_cleanup (ltcdMain_trace (Examples.env_of Examples.cfg_serve None) true).
Proof.
  destruct (shutdown_complete_last Failing.env_bad_db false) as (H1 & _).
  destruct (H1 (Some "db locked") Examples.cfg_profile eq_refl eq_refl)
    as (H2 & _).
  destruct (shutdown_complete_last (Examples.env_of Examples.cfg_serve None) true)
    as (_ & H3).
  split; [reflexivity|]. split; [reflexivity|]. split; [exact H2|].
  split; [reflexivity|]. exact (H3 eq_refl).
Defined.

(** A failed call with a log text is one of the logged failures. *)
Lemma error_text_logged cfg ev msg :
  error_text cfg ev = Some msg -> is_logged_failure ev = true.
Proof.
  unfold error_text, is_logged_failure. repeat case_match; congruence.
Qed.

(** X14: once the configuration is loaded, the call of [ltcdMain] that
    fails is followed at once by the log of its error at error level, with
    the text of the source, then by the deferred calls registered so far
    and nothing else, and [ltcdMain] returns that error; [ltcdMain] itself
    logs as many errors as it has such failed calls, none before one.  The
    goroutine of the profile server logs an error exactly when
    [http.ListenAndServe] returns, and it is the error it returned. *)
Theorem error_logged_once {DB} (env : Env DB) (ch : bool) cfg :
  loadConfig env = Ok cfg ->
  (∀ t1 ev t2 msg,
     ltcdMain_trace env ch = t1 ++ ev :: t2 ->
     error_text cfg ev = Some msg ->
     t2 = EvLog ltcdLog Error msg :: unwind (registered t1) ∧
     ltcdMain_outcome env ch = Returns (failure_of ev)) ∧
  count is_error_log (ltcdMain_trace env ch)
  = count is_logged_failure (ltcdMain_trace env ch) ∧
  guarded_by is_logged_failure is_error_log (ltcdMain_trace env ch) ∧
  (∀ g, profileServer env = Some g ->
        ∀ msg, EvLog ltcdLog Error msg ∈ g <->
               http_ListenAndServe env (listenAddr (Profile cfg)) = Some msg).
Proof.
  intros Hcfg. split; [|split; [|split]].
  - intros t1 ev t2 msg Hsplit Htext.
    pose proof (error_text_logged _ _ _ Htext) as Hlog.
    pose proof Hsplit as Hcut.
    apply (split_once is_logged_failure) in Hcut; [|exact Hlog|].
    + revert Hcfg Hsplit Htext Hcut. clear Hlog. run_ltcdMain.
      all: intros; simplify_eq/=; split; reflexivity.
    + clear. run_ltcdMain. all: lia.
  - run_ltcdMain. all: reflexivity.
  - run_ltcdMain. all: apply guardedb_sound; reflexivity.
  - intros g. revert Hcfg. unfold profileServer, profileServer_body, log.
    cbv beta iota zeta delta
      [bind emit ret block init nonempty trace defers looks db fst snd].
    repeat (step_case; cbv beta iota); simpl.
    all: intros; simplify_eq; rewrite ?elem_of_cons, ?elem_of_nil.
    all: split;
      [ intros Hm; repeat (destruct Hm as [Hm|Hm]; [by simplify_eq|]);
        contradiction
      | intros Hm; simplify_eq; auto 10 ].
Qed.

Lemma error_logged_once_witness :
  loadConfig Failing.env_bad_db = Ok Examples.cfg_profile ∧
  ltcdMain_trace Failing.env_bad_db false
  = removelast (removelast (Examples.startup_until_open))
      ++ EvLoadBlockDB (Some "db locked")
      :: EvLog ltcdLog Error "db locked"
      :: unwind (registered (removelast (removelast Examples.startup_until_open))) ∧
  error_text Examples.cfg_profile (EvLoadBlockDB (Some "db locked"))
  = Some "db locked" ∧
  ltcdMain_outcome Failing.env_bad_db false = Returns (Some "db locked") ∧
  profileServer Failing.env_bad_db
  = Some [EvLog ltcdLog Info "Profile server listening on :6060";
          EvHttpHandle "/" "/debug/pprof" 303;
          EvListenAndServe ":6060" (Some "bind: address already in use");
          EvLog ltcdLog Error "bind: address already in use"] ∧
  http_ListenAndServe Failing.env_bad_db (listenAddr (Profile Examples.cfg_profile))
  = Some "bind: address already in use".
Proof.
  assert (ltcdMain_trace Failing.env_bad_db false
          = removelast (removelast (Examples.startup_until_open))
              ++ EvLoadBlockDB (Some "db locked")
              :: EvLog ltcdLog Error "db locked"
              :: unwind (registered
                           (removelast (removelast Examples.startup_until_open))))
    as Hsplit by reflexivity.
  destruct (error_logged_once Failing.env_bad_db false Examples.cfg_profile
              eq_refl) as (H1 & _ & _ & H4).
  destruct (H1 _ _ _ "db locked" Hsplit eq_refl) as (_ & H2).
  split; [reflexivity|]. split; [exact Hsplit|]. split; [reflexivity|].
  split; [exact H2|]. split; [reflexivity|].
  apply (H4 _ eq_refl "bind: address already in use").
  vm_compute. solve_elem.
Defined.

(** X11: with a nil [serverChan], or one that is received from, [ltcdMain]
    returns if the shutdown signal arrives at some point; it blocks only
    with the server started and no deferred call run, either at its wait
    for a signal that never arrives or at its send on a [serverChan] nobody
    receives from; and such a send blocks it whether the signal arrives or
    not. *)
Theorem returns_when_signalled {DB} (env : Env DB) (ch : bool) :
  (∀ n, signal env = Some n -> ch = false ∨ received env = true ->
        ∃ r, ltcdMain_outcome env ch = Returns r) ∧
  (ltcdMain_outcome env ch = Blocks ->
   (signal env = None ∨ (ch = true ∧ received env = false)) ∧
   occurs is_start (ltcdMain_trace env ch) ∧
   never is_await (ltcdMain_trace env ch) ∧
   never is_cleanup (ltcdMain_trace env ch)) ∧
  (ch = true -> received env = false ->
   occurs is_start (ltcdMain_trace env ch) ->
   ltcdMain_outcome env ch = Blocks ∧
   ends_with [EvServerStart; EvServerChanSend] (ltcdMain_trace env ch)).
Proof.
  split; [|split].
  - intros n. run_ltcdMain.
    all: intros ? [?|?]; simplify_eq; by eexists.
  - run_ltcdMain.
    all: intros; simplify_eq.
    all: split; [auto|].
    all: repeat split; trace_goal.
  - run_ltcdMain. all: leaf.
Qed.

Lemma returns_when_signalled_witness :
  (signal (Examples.env_of Examples.cfg_serve (Some 7)) = Some 7 ∧
   received (Examples.env_of Examples.cfg_serve (Some 7)) = true ∧
   ∃ r, ltcdMain_outcome (Examples.env_of Examples.cfg_serve (Some 7)) true
        = Returns r) ∧
  (ltcdMain_outcome (Examples.env_of Examples.cfg_serve None) false = Blocks ∧
   occurs is_start
     (ltcdMain_trace (Examples.env_of Examples.cfg_serve None) false)) ∧
  (received Failing.env_windows = false ∧
   occurs is_start (ltcdMain_trace Failing.env_windows true) ∧
   ltcdMain_outcome Failing.env_windows true = Blocks).
Proof.
  destruct (returns_when_signalled (Examples.env_of Examples.cfg_serve (Some 7))
              true) as (H1 & _).
  destruct (returns_when_signalled (Examples.env_of Examples.cfg_serve None)
              false) as (_ & H2 & _).
  destruct (H2 eq_refl) as (_ & H3 & _).
  assert (occurs is_start (ltcdMain_trace Failing.env_windows true)) as Hst
    by (apply occurs_existsb; reflexivity).
  destruct (returns_when_signalled Failing.env_windows true) as (_ & _ & H4).
  destruct (H4 eq_refl eq_refl Hst) as (H5 & _).
  split; [split; [reflexivity|]; split; [reflexivity|];
          exact (H1 7 eq_refl (or_intror eq_refl))|].
  split; [split; [reflexivity | exact H3]|].
  split; [reflexivity|]. split; [exact Hst | exact H5].
Defined.

(** X8: [indexers.DropAddrIndex] is called only with [cfg.DropAddrIndex] set,
    [indexers.DropTxIndex] only with [cfg.DropTxIndex] set and
    [cfg.DropAddrIndex] unset, and at most one drop is performed; with both
    flags unset no drop is performed, and as long as [newServer] has not
    been handed the database its content is what [loadBlockDB] returned. *)
Theorem drops_follow_flags {DB} (env : Env DB) (ch : bool) cfg :
  loadConfig env = Ok cfg ->
  (occurs is_drop_addr (ltcdMain_trace env ch) -> DropAddrIndex cfg = true) ∧
  (occurs is_drop_tx (ltcdMain_trace env ch) ->
   DropTxIndex cfg = true ∧ DropAddrIndex cfg = false) ∧
  count is_drop (ltcdMain_trace env ch) <= 1 ∧
  (DropAddrIndex cfg = false -> DropTxIndex cfg = false ->
   never is_drop (ltcdMain_trace env ch) ∧
   ∀ d, loadBlockDB env = Ok d ->
        (never is_opened (ltcdMain_trace env ch) -> ltcdMain_db env ch = None) ∧
        (occurs is_opened (ltcdMain_trace env ch) ->
         never is_construct (ltcdMain_trace env ch) ->
         ltcdMain_db env ch = Some d) ∧
        (occurs is_construct (ltcdMain_trace env ch) ->
         ltcdMain_db env ch = Some (served env d))).
Proof.
  run_ltcdMain. all: leaf.
Qed.

Lemma drops_follow_flags_witness :
  loadConfig (Examples.env_of Examples.cfg_drop_tx (Some 2))
  = Ok Examples.cfg_drop_tx ∧
  occurs is_drop_tx
    (ltcdMain_trace (Examples.env_of Examples.cfg_drop_tx (Some 2)) false) ∧
  DropTxIndex Examples.cfg_drop_tx = true ∧
  loadConfig (Examples.env_of Examples.cfg_serve (Some 1)) = Ok Examples.cfg_serve ∧
  never is_drop (ltcdMain_trace (Examples.env_of Examples.cfg_serve (Some 1)) false) ∧
  occurs is_opened (ltcdMain_trace (Examples.env_of Examples.cfg_serve (Some 1)) false) ∧
  never is_construct
    (ltcdMain_trace (Examples.env_of Examples.cfg_serve (Some 1)) false) ∧
  ltcdMain_db (Examples.env_of Examples.cfg_serve (Some 1)) false
  = Some Examples.both_indexes.
Proof.
  assert (occurs is_drop_tx
            (ltcdMain_trace (Examples.env_of Examples.cfg_drop_tx (Some 2)) false))
    as Hocc by (apply occurs_existsb; reflexivity).
  assert (occurs is_opened
            (ltcdMain_trace (Examples.env_of Examples.cfg_serve (Some 1)) false))
    as Hop by (apply occurs_existsb; reflexivity).
  assert (never is_construct
            (ltcdMain_trace (Examples.env_of Examples.cfg_serve (Some 1)) false))
    as Hnc by (apply never_existsb; reflexivity).
  destruct (drops_follow_flags (Examples.env_of Examples.cfg_drop_tx (Some 2))
              false Examples.cfg_drop_tx eq_refl) as (_ & H2 & _).
  destruct (drops_follow_flags (Examples.env_of Examples.cfg_serve (Some 1))
              false Examples.cfg_serve eq_refl) as (_ & _ & _ & H4).
  destruct (H4 eq_refl eq_refl) as (H5 & H6).
  destruct (H6 Examples.both_indexes eq_refl) as (_ & H7 & _).
  split; [reflexivity|]. split; [exact Hocc|]. split; [exact (proj1 (H2 Hocc))|].
  split; [reflexivity|]. split; [exact H5|]. split; [exact Hop|].
  split; [exact Hnc|]. exact (H7 Hop Hnc).
Defined.

(** X10: the server is sent on [serverChan] exactly when [serverChan] is not
    nil and the server was started, at most once, after [Start] and before
    the wait for the interrupt; [main], which passes nil, never sends. *)
Theorem server_chan_send {DB} (env : Env DB) (ch : bool) :
  (occurs is_send (ltcdMain_trace env ch) <->
   ch = true ∧ occurs is_start (ltcdMain_trace env ch)) ∧
  count is_send (ltcdMain_trace env ch) <= 1 ∧
  guarded_by is_start is_send (ltcdMain_trace env ch) ∧
  guarded_by is_send is_await (ltcdMain_trace (env) true) ∧
  never is_send (main env).1.
Proof.
  split; [|split; [|split; [|split]]].
  - destruct ch; run_ltcdMain.
    all: split; [intros; try no_occurrence; split; trace_goal
                |intros [? ?]; try discriminate; try no_occurrence; trace_goal].
  - run_ltcdMain. all: destruct ch; simpl; lia.
  - run_ltcdMain. all: leaf.
  - run_ltcdMain. all: leaf.
  - run_ltcdMain. all: leaf.
Qed.

Lemma server_chan_send_witness :
  occurs is_start (ltcdMain_trace (Examples.env_of Examples.cfg_serve (Some 2)) true) ∧
  occurs is_send (ltcdMain_trace (Examples.env_of Examples.cfg_serve (Some 2)) true) ∧
  never is_send (main (Examples.env_of Examples.cfg_serve (Some 2))).1.
Proof.
  assert (occurs is_start
            (ltcdMain_trace (Examples.env_of Examples.cfg_serve (Some 2)) true))
    as Hocc by (apply occurs_existsb; reflexivity).
  destruct (server_chan_send (Examples.env_of Examples.cfg_serve (Some 2)) true)
    as (H1 & _ & _ & _ & H5).
  split; [exact Hocc|]. split; [|exact H5].
  apply H1. split; [reflexivity | exact Hocc].
Defined.

(** X9: a constructed server is started exactly once, after its
    construction; it is stopped only after the wait for the interrupt has
    ended, and a run that constructed the server and returns, returns nil. *)
Theorem serves_until_interrupt {DB} (env : Env DB) (ch : bool) :
  occurs is_constructed (ltcdMain_trace env ch) ->
  once is_start (ltcdMain_trace env ch) ∧
  precedes is_constructed is_start (ltcdMain_trace env ch) ∧
  guarded_by is_await is_stop (ltcdMain_trace env ch) ∧
  guarded_by is_start is_await (ltcdMain_trace env ch) ∧
  (∀ r, ltcdMain_outcome env ch = Returns r ->
        r = None ∧
        once is_await (ltcdMain_trace env ch) ∧
        precedes is_start is_stop (ltcdMain_trace env ch)).
Proof.
  run_ltcdMain. all: leaf.
Qed.

Lemma serves_until_interrupt_witness :
  occurs is_constructed
    (ltcdMain_trace (Examples.env_of Examples.cfg_serve (Some 2)) false) ∧
  once is_start
    (ltcdMain_trace (Examples.env_of Examples.cfg_serve (Some 2)) false) ∧
  ltcdMain_outcome (Examples.env_of Examples.cfg_serve (Some 2)) false
  = Returns None ∧
  precedes is_start is_stop
    (ltcdMain_trace (Examples.env_of Examples.cfg_serve (Some 2)) false).
Proof.
  assert (occurs is_constructed
            (ltcdMain_trace (Examples.env_of Examples.cfg_serve (Some 2)) false))
    as Hocc by (apply occurs_existsb; reflexivity).
  destruct (serves_until_interrupt (Examples.env_of Examples.cfg_serve (Some 2))
              false Hocc) as (H1 & _ & _ & _ & H5).
  destruct (H5 None eq_refl) as (_ & _ & H6).
  split; [exact Hocc|]. split; [exact H1|]. split; [reflexivity | exact H6].
Defined.

(** X7: [ltcdMain] looks for an interrupt at most twice and finds one at most
    once; no look comes before the upgrade step has completed, the database
    is opened only after a look that found none, and an index drop or the
    construction of the server happens only when both looks found none. *)
Theorem checkpoints {DB} (env : Env DB) (ch : bool) :
  count is_checkpoint (ltcdMain_trace env ch) <= 2 ∧
  count is_interrupted (ltcdMain_trace env ch) <= 1 ∧
  guarded_by is_upgraded is_checkpoint (ltcdMain_trace env ch) ∧
  guarded_by is_not_interrupted is_open (ltcdMain_trace env ch) ∧
  (occurs is_drop (ltcdMain_trace env ch) ∨
   occurs is_construct (ltcdMain_trace env ch) ->
   count is_not_interrupted (ltcdMain_trace env ch) = 2 ∧
   never is_interrupted (ltcdMain_trace env ch)).
Proof.
  run_ltcdMain. all: leaf.
Qed.

Lemma checkpoints_witness :
  occurs is_drop
    (ltcdMain_trace (Examples.env_of Examples.cfg_drop_addr (Some 2)) false) ∧
  count is_not_interrupted
    (ltcdMain_trace (Examples.env_of Examples.cfg_drop_addr (Some 2)) false) = 2.
Proof.
  assert (occurs is_drop
            (ltcdMain_trace (Examples.env_of Examples.cfg_drop_addr (Some 2)) false))
    as Hocc by (apply occurs_existsb; reflexivity).
  destruct (checkpoints (Examples.env_of Examples.cfg_drop_addr (Some 2)) false)
    as (_ & _ & _ & _ & H5).
  split; [exact Hocc|]. exact (proj1 (H5 (or_introl Hocc))).
Defined.

(** X4: the profile server is launched exactly when [cfg.Profile] is not
    empty, the CPU profile file is created exactly when [cfg.CPUProfile] is
    not empty, profiling starts exactly when that creation succeeds, and the
    profile is never stopped nor a file closed unless profiling started. *)
Theorem profiling_as_configured {DB} (env : Env DB) (ch : bool) cfg :
  loadConfig env = Ok cfg ->
  (occurs is_profile_server (ltcdMain_trace env ch) <-> Profile cfg ≠ "") ∧
  (occurs is_create (ltcdMain_trace env ch) <-> CPUProfile cfg ≠ "") ∧
  (occurs is_start_profile (ltcdMain_trace env ch) <->
   CPUProfile cfg ≠ "" ∧ os_Create env (CPUProfile cfg) = None) ∧
  guarded_by is_start_profile is_stop_profile (ltcdMain_trace env ch) ∧
  guarded_by is_start_profile is_file_close (ltcdMain_trace env ch) ∧
  guarded_by is_load_config is_profile_server (ltcdMain_trace env ch).
Proof.
  run_ltcdMain. all: leaf.
Qed.

Lemma profiling_as_configured_witness :
  loadConfig (Examples.env_of Examples.cfg_profile (Some 0))
  = Ok Examples.cfg_profile ∧
  Profile Examples.cfg_profile ≠ "" ∧
  occurs is_profile_server
    (ltcdMain_trace (Examples.env_of Examples.cfg_profile (Some 0)) false) ∧
  occurs is_start_profile
    (ltcdMain_trace (Examples.env_of Examples.cfg_profile (Some 0)) false).
Proof.
  assert (Profile Examples.cfg_profile ≠ "") as Hp by (simpl; discriminate).
  assert (CPUProfile Examples.cfg_profile ≠ "") as Hc by (simpl; discriminate).
  destruct (profiling_as_configured (Examples.env_of Examples.cfg_profile (Some 0))
              false Examples.cfg_profile eq_refl) as (H1 & _ & H3 & _).
  split; [reflexivity|]. split; [exact Hp|].
  split; [apply H1; exact Hp|]. apply H3. split; [exact Hc | reflexivity].
Defined.

(** Finds the two sides of a computed trace around its exit. *)
Ltac split_exit H :=
  apply (split_once is_exit) in H; [|reflexivity|cbn; lia];
  cbn in H; simplify_eq.

(** X15: [main] exits with code 1 exactly when a call of [main] or
    [ltcdMain] failed; it never exits with a code above 1; and it hangs only
    when the shutdown signal never arrives, with the server started, no exit
    and no deferred call run. *)
Theorem main_exit_status {DB} (env : Env DB) :
  ((main env).2 = Exit 1 <-> occurs is_main_failure (main env).1) ∧
  ((main env).2 = Hang ->
   signal env = None ∧ occurs is_start (main env).1 ∧
   never is_exit (main env).1 ∧ never is_cleanup (main env).1) ∧
  (∀ c, (main env).2 = Exit c -> c <= 1).
Proof.
  run_ltcdMain. all: leaf.
Qed.

Lemma main_exit_status_witness :
  occurs is_main_failure (main Examples.env_no_server).1 ∧
  (main Examples.env_no_server).2 = Exit 1 ∧
  (main (Examples.env_of Examples.cfg_serve None)).2 = Hang ∧
  never is_exit (main (Examples.env_of Examples.cfg_serve None)).1.
Proof.
  assert (occurs is_main_failure (main Examples.env_no_server).1) as Hocc
    by (apply occurs_existsb; reflexivity).
  destruct (main_exit_status Examples.env_no_server) as (H1 & _).
  destruct (main_exit_status (Examples.env_of Examples.cfg_serve None))
    as (_ & H2 & _).
  destruct (H2 eq_refl) as (_ & _ & H3 & _).
  split; [exact Hocc|]. split; [apply H1; exact Hocc|].
  split; [reflexivity | exact H3].
Defined.

(** X16: [main] calls [winServiceMain] only on Windows; when [SetLimits]
    fails it writes "failed to set limits: ", the error and a line feed to
    stderr and exits with code 1 without entering [ltcdMain]; [ltcdMain] is entered only when the limits were set and, on
    Windows, the process is not a service; run as a service, [main] exits
    with code 0 without entering [ltcdMain]. *)
Theorem main_gates_ltcdMain {DB} (env : Env DB) :
  (occurs is_win_service (main env).1 -> GOOS env = "windows") ∧
  (∀ e, limits_SetLimits env = Some e ->
        main env
        = ([EvGOMAXPROCS; EvSetGCPercent 10; EvSetLimits (Some e);
            EvStderr ("failed to set limits: " +:+ e +:+ newline); EvExit 1],
           Exit 1)) ∧
  (occurs is_load_config (main env).1 ->
   limits_SetLimits env = None ∧
   (GOOS env = "windows" -> winServiceMain env = (false, None))) ∧
  (limits_SetLimits env = None -> GOOS env = "windows" ->
   (winServiceMain env).2 = None -> (winServiceMain env).1 = true ->
   (main env).2 = Exit 0 ∧ never is_load_config (main env).1 ∧
   ends_with [EvExit 0] (main env).1).
Proof.
  run_ltcdMain. all: leaf.
Qed.

Lemma main_gates_ltcdMain_witness :
  limits_SetLimits Failing.env_bad_limits = Some "rlimit" ∧
  (main Failing.env_bad_limits).2 = Exit 1 ∧
  GOOS Failing.env_service = "windows" ∧
  (main Failing.env_service).2 = Exit 0 ∧
  never is_load_config (main Failing.env_service).1 ∧
  occurs is_load_config (main Failing.env_windows).1 ∧
  winServiceMain Failing.env_windows = (false, None).
Proof.
  destruct (main_gates_ltcdMain Failing.env_bad_limits) as (_ & H1 & _).
  destruct (main_gates_ltcdMain Failing.env_service) as (_ & _ & _ & H2).
  destruct (H2 eq_refl eq_refl eq_refl eq_refl) as (H3 & H4 & _).
  assert (occurs is_load_config (main Failing.env_windows).1) as Hocc
    by (apply occurs_existsb; reflexivity).
  destruct (main_gates_ltcdMain Failing.env_windows) as (_ & _ & H5 & _).
  destruct (H5 Hocc) as (_ & H6).
  split; [reflexivity|]. split; [by rewrite (H1 "rlimit" eq_refl)|].
  split; [reflexivity|]. split; [exact H3|]. split; [exact H4|].
  split; [exact Hocc|]. exact (H6 eq_refl).
Defined.

(** X17: a call of [os.Exit] is the last event of [main] and gives the exit
    code; before it, every deferred call of [ltcdMain] has run: an opened
    database is closed, a started profile stopped and its file closed, and
    the log flushed after "Shutdown complete". *)
Theorem exit_after_cleanup {DB} (env : Env DB) t1 c t2 :
  (main env).1 = t1 ++ EvExit c :: t2 ->
  t2 = [] ∧ (main env).2 = Exit c ∧
  (occurs is_opened t1 -> once is_close t1) ∧
  (occurs is_listener t1 ->
   ends_with [EvLog ltcdLog Info "Shutdown complete"; EvFlush] t1) ∧
  (occurs is_start_profile t1 ->
   once is_stop_profile t1 ∧ once is_file_close t1).
Proof.
  run_ltcdMain.
  all: intros Hsplit; pose proof Hsplit as Hexit; split_exit Hsplit.
  all: simpl in Hexit; simplify_eq.
  all: leaf.
Qed.

Lemma exit_after_cleanup_witness :
  (main Examples.env_no_server).1
  = (removelast (main Examples.env_no_server).1) ++ EvExit 1 :: [] ∧
  (main Examples.env_no_server).2 = Exit 1 ∧
  occurs is_opened (removelast (main Examples.env_no_server).1) ∧
  once is_close (removelast (main Examples.env_no_server).1).
Proof.
  assert ((main Examples.env_no_server).1
          = (removelast (main Examples.env_no_server).1) ++ EvExit 1 :: [])
    as Hsplit by reflexivity.
  assert (occurs is_opened (removelast (main Examples.env_no_server).1)) as Hocc
    by (apply occurs_existsb; reflexivity).
  destruct (exit_after_cleanup Examples.env_no_server _ _ _ Hsplit)
    as (_ & H2 & H3 & _).
  split; [exact Hsplit|]. split; [exact H2|]. split; [exact Hocc | exact (H3 Hocc)].
Defined.
